(** * NOAA Weather integration: update coordinator, stub client, sensor lookup

    A shallow embedding of
      - [homeassistant/components/noaa_weather/noaaweather.py]
        (the error classes and the stub client),
      - [homeassistant/components/noaa_weather/__init__.py]
        (the update coordinator, setting up and unloading an entry),
      - [homeassistant/components/noaa_weather/sensor.py]
        (the sensor descriptions, the sensor entity and its platform), and
      - [homeassistant/components/noaa_weather/weather.py]
        (the readings of the weather entity),
    with the properties of the specification, and further properties of
    the code, stated and proved over it. *)

From Stdlib Require Import ZArith Strings.Ascii Floats.PrimFloat Floats.FloatOps Floats.SpecFloat.
From stdpp Require Import gmap strings list fin_maps pretty.

Set Warnings "-register-all,-inexact-float".
Local Open Scope string_scope.
Local Open Scope Z_scope.

(** ** Python values

    The JSON-like objects that travel through the integration: [None],
    booleans, integers, binary64 floats, strings, lists and dictionaries
    keyed by strings. *)

Inductive value :=
| VNone
| VBool (b : bool)
| VInt (n : Z)
| VFloat (f : float)
| VStr (s : string)
| VList (l : list value)
| VDict (d : gmap string value).

(** A dictionary display [{k1: v1, ..., kn: vn}]: the entries are stored
    from left to right, so a repeated key keeps its last value. *)
Definition dict_of (entries : list (string * value)) : gmap string value :=
  fold_left (fun d kv => <[kv.1 := kv.2]> d) entries ∅.

(** ** noaaweather.py *)

Module noaaweather.

(** The four exception classes of the client library.  [ApiError] is the
    base class, the other three derive from it. *)
Inductive error_class :=
| ApiError
| ClientConnectorError
| InvalidApiKeyError
| RequestsExceededError.

#[global] Instance error_class_eq_dec : EqDecision error_class.
Proof. solve_decision. Defined.

Definition all_classes : list error_class :=
  [ApiError; ClientConnectorError; InvalidApiKeyError; RequestsExceededError].

(** [issubclass c base] for the hierarchy above. *)
Definition issubclass (c base : error_class) : bool :=
  match base with
  | ApiError => true
  | _ => bool_decide (c = base)
  end.

(** An instance of one of the four classes: the message handed to
    [Exception.__init__], and the two attributes set by
    [ApiError.__init__]. *)
Record api_exception := {
  cls : error_class;
  message : string;
  status_code : option Z;
  response : option value
}.

(** [ApiError.__init__(self, message, status_code=None, response=None)]. *)
Definition ApiError_init (c : error_class) (message : string)
    (status_code : option Z) (response : option value) : api_exception :=
  {| cls := c; message := message;
     status_code := status_code; response := response |}.

(** The text each subclass puts before the message in its own
    [__init__]; the base class adds nothing. *)
Definition message_prefix (c : error_class) : string :=
  match c with
  | ApiError => ""
  | ClientConnectorError => "Client Connector Error."
  | InvalidApiKeyError => "Invalid API Key."
  | RequestsExceededError => "Requests Exceeded."
  end.

(** Calling a class: [c(message, status_code, response)].  A subclass
    rewrites [message] and delegates to [ApiError.__init__]. *)
Definition new (c : error_class) (message : string)
    (status_code : option Z) (response : option value) : api_exception :=
  match c with
  | ApiError => ApiError_init ApiError message status_code response
  | ClientConnectorError =>
      let message := "Client Connector Error." ++ message in
      ApiError_init ClientConnectorError message status_code response
  | InvalidApiKeyError =>
      let message := "Invalid API Key." ++ message in
      ApiError_init InvalidApiKeyError message status_code response
  | RequestsExceededError =>
      let message := "Requests Exceeded." ++ message in
      ApiError_init RequestsExceededError message status_code response
  end.

(** [c(message)]: both keyword arguments left at their default [None]. *)
Definition new_default (c : error_class) (message : string) : api_exception :=
  new c message None None.

(** [class NOAAWeather]: [__init__] is [pass], so an instance carries no
    attribute at all. *)
Inductive NOAAWeather := NOAAWeather_instance.

Definition NOAAWeather_init (lat lon : float) (url api_key : option string)
  : NOAAWeather := NOAAWeather_instance.

Definition unit_value (unit : string) (unit_type : Z) (v : value) : value :=
  VDict (dict_of [("Unit", VStr unit); ("UnitType", VInt unit_type); ("Value", v)]).

Definition wind_value (degrees : Z) (english localized : string)
    (speed : float) : value :=
  VDict (dict_of [
    ("Direction", VDict (dict_of [("Degrees", VInt degrees);
                                  ("English", VStr english);
                                  ("Localized", VStr localized)]));
    ("Speed", unit_value "km/h" 7 (VFloat speed))]).

Definition async_get_current_conditions (self : NOAAWeather)
  : gmap string value :=
  let current := dict_of [
    ("Temperature", unit_value "C" 17 (VFloat 25.5));
    ("DewPoint", unit_value "C" 17 (VFloat 18.3));
    ("RelativeHumidity", VInt 62);
    ("WindChillTemperature", unit_value "C" 17 VNone);
    ("ApparentTemperature", unit_value "C" 17 (VFloat 27.8));
    ("Wind", wind_value 140 "SE" "SE" 15.4);
    ("Visibility", unit_value "km" 6 (VFloat 16.1));
    ("CloudCover", VInt 30);
    ("Precipitation", unit_value "mm/h" 3 (VInt 0));
    ("WeatherIcon", VInt 34);
    ("WeatherText", VStr "Mostly sunny")] in
  current.

Definition forecast_day0 : value :=
  VDict (dict_of [
    ("EpochDate", VInt 1697817600);
    ("TemperatureMax", unit_value "C" 17 (VFloat 28.9));
    ("TemperatureMin", unit_value "C" 17 (VFloat 19.4));
    ("RealFeelTemperatureMax", unit_value "C" 17 (VFloat 32.2));
    ("RealFeelTemperatureMin", unit_value "C" 17 (VFloat 18.9));
    ("TotalLiquidDay", unit_value "mm" 3 (VFloat 0.5));
    ("PrecipitationProbabilityDay", VInt 30);
    ("WindDay", wind_value 165 "SSE" "SSE" 12.9);
    ("WindGustDay", wind_value 170 "S" "S" 20.4);
    ("CloudCoverDay", VInt 40);
    ("IconDay", VInt 36)]).

Definition forecast_day1 : value :=
  VDict (dict_of [
    ("EpochDate", VInt 1729472302);
    ("TemperatureMax", unit_value "C" 17 (VFloat 18.1));
    ("TemperatureMin", unit_value "C" 17 (VFloat 1.5));
    ("RealFeelTemperatureMax", unit_value "C" 17 (VFloat 22.8));
    ("RealFeelTemperatureMin", unit_value "C" 17 (VFloat 0.9));
    ("TotalLiquidDay", unit_value "mm" 3 (VFloat 3.5));
    ("PrecipitationProbabilityDay", VInt 30);
    ("WindDay", wind_value 42 "SSE" "SSE" 33.9);
    ("WindGustDay", wind_value 30 "S" "S" 49.4);
    ("CloudCoverDay", VInt 90);
    ("IconDay", VInt 36)]).

Definition async_get_daily_forecast (self : NOAAWeather) : list value :=
  let forecast := [forecast_day0; forecast_day1] in
  forecast.

End noaaweather.

(** ** Exceptions, results and awaited calls *)

Inductive exn :=
| ApiException (e : noaaweather.api_exception)
| TimeoutError
| UpdateFailed (error : noaaweather.api_exception)
| KeyError (key : value)
| IndexError
| TypeError
| OtherException (name : string).

Inductive result (A : Type) :=
| Return (a : A)
| Raise (e : exn).
Arguments Return {A} a.
Arguments Raise {A} e.

(** What awaiting a client call amounts to: the time it takes to settle,
    in milliseconds, and how it settles. *)
Record awaited (A : Type) := Awaited {
  took : Z;
  outcome : result A
}.
Arguments Awaited {A} took outcome.
Arguments took {A} a.
Arguments outcome {A} a.

(** The body of an [async with timeout(...)] block reads the ceiling and
    the time already spent in the block, and either returns with the time
    spent so far or raises. *)
Definition timed (A : Type) : Type := Z -> Z -> result (A * Z).

Definition timed_ret {A} (a : A) : timed A :=
  fun _ elapsed => Return (a, elapsed).

Definition timed_bind {A B} (m : timed A) (k : A -> timed B) : timed B :=
  fun ceiling elapsed =>
    match m ceiling elapsed with
    | Return (a, elapsed') => k a ceiling elapsed'
    | Raise e => Raise e
    end.

Notation "'let*' x ':=' m 'in' k" := (timed_bind m (fun x => k))
  (at level 10, x name, m at level 100, k at level 200).

(** [await call] inside the block: when the ceiling is reached before the
    call settles, the block is cancelled and [TimeoutError] is raised in
    its place; otherwise the call settles as it would have. *)
Definition await {A} (call : awaited A) : timed A :=
  fun ceiling elapsed =>
    if ceiling <? elapsed + took call then Raise TimeoutError
    else match outcome call with
         | Return a => Return (a, elapsed + took call)
         | Raise e => Raise e
         end.

(** [async with timeout(seconds): body]. *)
Definition timeout {A} (seconds : Z) (body : timed A) : result A :=
  match body (seconds * 1000) 0 with
  | Return (a, _) => Return a
  | Raise e => Raise e
  end.

(** The two queries the coordinator sends to its client object. *)
Class DataSource (C : Type) := {
  get_current_conditions : C -> awaited (gmap string value);
  get_daily_forecast : C -> awaited (list value)
}.

(** The client of [noaaweather.py]: both coroutines return at once, without
    ever suspending. *)
#[export] Instance NOAAWeather_source : DataSource noaaweather.NOAAWeather := {
  get_current_conditions self :=
    Awaited 0 (Return (noaaweather.async_get_current_conditions self));
  get_daily_forecast self :=
    Awaited 0 (Return (noaaweather.async_get_daily_forecast self))
}.

(** A client whose two calls settle as scripted, standing for any data
    source the coordinator may be wired to. *)
Record scripted := Scripted {
  current_call : awaited (gmap string value);
  forecast_call : awaited (list value)
}.

#[export] Instance scripted_source : DataSource scripted := {
  get_current_conditions := current_call;
  get_daily_forecast := forecast_call
}.

(** [timedelta(minutes=m)], in seconds. *)
Definition timedelta_minutes (m : Z) : Z := m * 60.

(** ** The host's update coordinator

    [NOAAWeatherDataUpdateCoordinator] derives from the host's
    [DataUpdateCoordinator] (homeassistant/helpers/update_coordinator.py),
    which holds the cached data and drives the refreshes. *)

Module DataUpdateCoordinator.

(** Modelled from the spec: the coordinator state of the base class
    [DataUpdateCoordinator], whose source is not part of the integration.
    It holds one current snapshot or none, the time of the last update,
    the refresh interval (in seconds), the subscribers, and the last
    error. *)
Record state := State {
  interval : Z;
  snapshot : option (gmap string value);
  last_updated : option Z;
  last_error : option exn;
  subscribers : list nat
}.

(** Modelled from the spec: [initialize(interval, client)] of the base
    class stores the refresh interval and starts with no snapshot (the
    client reference is kept by the derived class). *)
Definition initialize (interval : Z) : state :=
  State interval None None None [].

(** Modelled from the spec: [refresh()] of the base class, given how the
    derived class's [_async_update_data] settled.  On success the
    snapshot is replaced wholesale and the time recorded; on failure the
    snapshot is left alone and the error goes to the last-error field.
    Either way every subscriber is notified, without payload. *)
Definition refresh (update : result (gmap string value)) (now : Z)
    (st : state) : state * list nat :=
  match update with
  | Return data =>
      (State (interval st) (Some data) (Some now) (last_error st)
             (subscribers st),
       subscribers st)
  | Raise e =>
      (State (interval st) (snapshot st) (last_updated st) (Some e)
             (subscribers st),
       subscribers st)
  end.

(** Modelled from the spec: [request_first_refresh()] of the base class
    performs one refresh, and a failure of it propagates to the caller. *)
Definition request_first_refresh (update : result (gmap string value))
    (now : Z) (st : state) : state * result unit :=
  let st' := (refresh update now st).1 in
  match update with
  | Return _ => (st', Return tt)
  | Raise e => (st', Raise e)
  end.

(** Modelled from the spec: [read()] of the base class returns the
    current snapshot, or none before the first successful refresh. *)
Definition read (st : state) : option (gmap string value) := snapshot st.

End DataUpdateCoordinator.

(** ** __init__.py and sensor.py *)

(** The attributes [__init__] sets ([device_info], registry metadata for
    the host, is left out), with the state of the base class. *)
Record NOAAWeatherDataUpdateCoordinator (C : Type) := Coordinator {
  api_key : option string;
  location_key : string;
  forecast : bool;
  lat : float;
  lon : float;
  name : string;
  noaaweather : C;
  base : DataUpdateCoordinator.state
}.
Arguments Coordinator {C}.
Arguments api_key {C}.
Arguments location_key {C}.
Arguments forecast {C}.
Arguments lat {C}.
Arguments lon {C}.
Arguments name {C}.
Arguments noaaweather {C}.
Arguments base {C}.

Section Integration.

(** [ATTR_FORECAST] is imported from the integration's [const] module;
    everything below holds for whatever string it is. *)
Variable ATTR_FORECAST : string.

(** [NOAAWeatherDataUpdateCoordinator.__init__(self, hass, session,
    api_key, lat, lon, name)]. *)
Definition __init__ (api_key : option string) (lat lon : float)
    (name : string) : NOAAWeatherDataUpdateCoordinator noaaweather.NOAAWeather :=
  let update_interval := timedelta_minutes 10 in
  Coordinator api_key "NOAA" true lat lon name
    (noaaweather.NOAAWeather_init lat lon None None)
    (DataUpdateCoordinator.initialize update_interval).

(** The body of the [async with timeout(10)] block of
    [_async_update_data]. *)
Definition fetch `{DataSource C} (client : C)
  : result (gmap string value * list value) :=
  timeout 10
    (let* current := await (get_current_conditions client) in
     let* forecast := await (get_daily_forecast client) in
     timed_ret (current, forecast)).

(** The classes named by the [except] clause of [_async_update_data]. *)
Definition caught : list noaaweather.error_class :=
  [noaaweather.ApiError; noaaweather.ClientConnectorError;
   noaaweather.InvalidApiKeyError; noaaweather.RequestsExceededError].

(** [NOAAWeatherDataUpdateCoordinator._async_update_data(self)]. *)
Definition _async_update_data `{DataSource C}
    (self : NOAAWeatherDataUpdateCoordinator C)
  : result (gmap string value) :=
  match fetch (noaaweather self) with
  | Raise (ApiException error) =>
      if existsb (noaaweather.issubclass (noaaweather.cls error)) caught
      then Raise (UpdateFailed error)
      else Raise (ApiException error)
  | Raise e => Raise e
  | Return (current, forecast) =>
      Return (<[ATTR_FORECAST := VList forecast]> current)
  end.

Definition with_base {C} (self : NOAAWeatherDataUpdateCoordinator C)
    (b : DataUpdateCoordinator.state) : NOAAWeatherDataUpdateCoordinator C :=
  Coordinator (api_key self) (location_key self) (forecast self)
    (lat self) (lon self) (name self) (noaaweather self) b.

(** The inherited operations, with [_async_update_data] as the hook the
    base class calls. *)
Definition refresh `{DataSource C} (now : Z)
    (self : NOAAWeatherDataUpdateCoordinator C)
  : NOAAWeatherDataUpdateCoordinator C * list nat :=
  let r := DataUpdateCoordinator.refresh (_async_update_data self) now (base self) in
  (with_base self r.1, r.2).

Definition request_first_refresh `{DataSource C} (now : Z)
    (self : NOAAWeatherDataUpdateCoordinator C)
  : NOAAWeatherDataUpdateCoordinator C * result unit :=
  let r := DataUpdateCoordinator.request_first_refresh
             (_async_update_data self) now (base self) in
  (with_base self r.1, r.2).

Definition read {C} (self : NOAAWeatherDataUpdateCoordinator C)
  : option (gmap string value) :=
  DataUpdateCoordinator.read (base self).

Definition last_error {C} (self : NOAAWeatherDataUpdateCoordinator C)
  : option exn :=
  DataUpdateCoordinator.last_error (base self).

Definition update_interval {C} (self : NOAAWeatherDataUpdateCoordinator C) : Z :=
  DataUpdateCoordinator.interval (base self).

(** The class of the client error a failure stands for, if any: an
    [UpdateFailed] carries the client error it was raised from. *)
Definition error_kind (e : exn) : option noaaweather.error_class :=
  match e with
  | ApiException a => Some (noaaweather.cls a)
  | UpdateFailed a => Some (noaaweather.cls a)
  | _ => None
  end.

(** *** Subscripting

    [obj[key]] on the values above.  Lists and strings take integer
    indices (booleans count as 0 and 1), negative ones counting from the
    end; dictionaries take hashable keys, of which only strings can be
    present. *)
Definition index_of (len : nat) (i : Z) : option nat :=
  let j := if i <? 0 then i + Z.of_nat len else i in
  if (0 <=? j) && (j <? Z.of_nat len) then Some (Z.to_nat j) else None.

Definition as_index (key : value) : option Z :=
  match key with
  | VInt i => Some i
  | VBool b => Some (if b then 1 else 0)
  | _ => None
  end.

Definition getitem (obj key : value) : result value :=
  match obj with
  | VDict d =>
      match key with
      | VStr k =>
          match d !! k with
          | Some v => Return v
          | None => Raise (KeyError key)
          end
      | VList _ | VDict _ => Raise TypeError
      | _ => Raise (KeyError key)
      end
  | VList l =>
      match as_index key with
      | Some i =>
          match index_of (length l) i with
          | Some n =>
              match l !! n with
              | Some v => Return v
              | None => Raise IndexError
              end
          | None => Raise IndexError
          end
      | None => Raise TypeError
      end
  | VStr s =>
      match as_index key with
      | Some i =>
          match index_of (String.length s) i with
          | Some n =>
              match String.get n s with
              | Some c => Return (VStr (String c EmptyString))
              | None => Raise IndexError
              end
          | None => Raise IndexError
          end
      | None => Raise TypeError
      end
  | _ => Raise TypeError
  end.

(** [_get_sensor_data(sensors, kind, forecast_day=None)]. *)
Definition _get_sensor_data (sensors : gmap string value) (kind : string)
    (forecast_day : option Z) : result value :=
  match forecast_day with
  | Some day =>
      match getitem (VDict sensors) (VStr ATTR_FORECAST) with
      | Return days =>
          match getitem days (VInt day) with
          | Return entry => getitem entry (VStr kind)
          | Raise e => Raise e
          end
      | Raise e => Raise e
      end
  | None =>
      Return (match sensors !! kind with Some v => v | None => VNone end)
  end.

(** *** The configuration as the specification lists it

    Follows the specification's words, not the source: a refresh
    interval (in seconds), a location, an optional credential and a
    display name. *)
Record SpecConfiguration := {
  cfg_interval : Z;
  cfg_latitude : float;
  cfg_longitude : float;
  cfg_credential : option string;
  cfg_name : string
}.

(** Initialization from such a configuration hands [__init__] the parts
    it has parameters for. *)
Definition coordinator_for (cfg : SpecConfiguration)
  : NOAAWeatherDataUpdateCoordinator noaaweather.NOAAWeather :=
  __init__ (cfg_credential cfg) (cfg_latitude cfg) (cfg_longitude cfg)
    (cfg_name cfg).

(** *** Clients and coordinators used as concrete instances below *)

(** A coordinator wired to a scripted client. *)
Definition coordinator_with (client : scripted)
  : NOAAWeatherDataUpdateCoordinator scripted :=
  Coordinator None "NOAA" true 40.7 (-74.0) "Home" client
    (DataUpdateCoordinator.initialize (timedelta_minutes 10)).

(** The current-conditions call settles only after 11 seconds. *)
Definition slow_client : scripted :=
  Scripted
    (Awaited 11000 (Return (dict_of [("RelativeHumidity", VInt 62)])))
    (Awaited 0 (Return [])).

(** The credential is rejected after 120 ms. *)
Definition rejecting_client : scripted :=
  Scripted
    (Awaited 120 (Raise (ApiException
       (noaaweather.new noaaweather.InvalidApiKeyError "rejected"
          (Some 401) None))))
    (Awaited 0 (Return [])).

(** The forecast call runs into the quota after the current conditions
    came back. *)
Definition quota_client : scripted :=
  Scripted
    (Awaited 80 (Return (dict_of [("RelativeHumidity", VInt 62)])))
    (Awaited 95 (Raise (ApiException
       (noaaweather.new_default noaaweather.RequestsExceededError "daily")))).

(** The current conditions come with a field of their own under
    ["forecast"]. *)
Definition colliding_client : scripted :=
  Scripted
    (Awaited 50 (Return (dict_of [("RelativeHumidity", VInt 62);
                                  ("forecast", VStr "sunny")])))
    (Awaited 60 (Return [])).

(** A coordinator that already holds a snapshot, taken at second 600,
    and has two subscribers. *)
Definition cached_coordinator_with (client : scripted)
  : NOAAWeatherDataUpdateCoordinator scripted :=
  Coordinator None "NOAA" true 40.7 (-74.0) "Home" client
    (DataUpdateCoordinator.State (timedelta_minutes 10)
       (Some (<[ATTR_FORECAST := VList []]>
                (dict_of [("RelativeHumidity", VInt 55)])))
       (Some 600) None [1%nat; 2%nat]).

(** What the stub client's data look like once merged. *)
Definition stub_snapshot : gmap string value :=
  <[ATTR_FORECAST :=
      VList (noaaweather.async_get_daily_forecast noaaweather.NOAAWeather_instance)]>
    (noaaweather.async_get_current_conditions noaaweather.NOAAWeather_instance).

(** A configuration that asks for a refresh every five minutes. *)
Definition five_minute_configuration : SpecConfiguration :=
  {| cfg_interval := timedelta_minutes 5;
     cfg_latitude := 40.7; cfg_longitude := -74.0;
     cfg_credential := Some "k3y"; cfg_name := "Home" |}.

(** ** More of the Python the integration relies on

    Strings stand for [str] objects whose characters are code points
    below 256. *)

Definition bind {A B} (m : result A) (k : A -> result B) : result B :=
  match m with
  | Return a => k a
  | Raise e => Raise e
  end.

Notation "'let!' x ':=' m 'in' k" := (bind m (fun x => k))
  (at level 10, x name, m at level 100, k at level 200).

(** A list comprehension [[f(x) for x in l]]. *)
Fixpoint mapM {A B} (f : A -> result B) (l : list A) : result (list B) :=
  match l with
  | [] => Return []
  | x :: rest =>
      let! y := f x in
      let! ys := mapM f rest in
      Return (y :: ys)
  end.

(** [range(n)]. *)
Definition range (n : Z) : list Z := map Z.of_nat (seq 0 (Z.to_nat n)).

(** [x] where a condition is expected. *)
Definition truthy (v : value) : bool :=
  match v with
  | VNone => false
  | VBool b => b
  | VInt n => negb (n =? 0)
  | VFloat f => negb (PrimFloat.eqb f 0)
  | VStr s => negb (Nat.eqb (String.length s) 0)
  | VList l => negb (Nat.eqb (length l) 0)
  | VDict d => negb (Nat.eqb (size d) 0)
  end.

(** [f == n] for a float and an integer, which Python decides exactly. *)
Definition float_eq_int (f : float) (n : Z) : bool :=
  match Prim2SF f with
  | S754_zero _ => n =? 0
  | S754_finite s m e =>
      let signed (x : Z) := if s then - x else x in
      if 0 <=? e then n =? signed (Z.pos m * 2 ^ e)
      else (Z.pos m mod 2 ^ (- e) =? 0) && (n =? signed (Z.pos m / 2 ^ (- e)))
  | _ => false
  end.

(** [x in v] for a list [v] of integers. *)
Definition in_ints (x : value) (v : list Z) : bool :=
  match x with
  | VInt n => existsb (Z.eqb n) v
  | VBool b => existsb (Z.eqb (Z.b2z b)) v
  | VFloat f => existsb (float_eq_int f) v
  | _ => false
  end.

(** [k in container] for a string [k]: a key of a dictionary, an element
    of a list, a substring of a string. *)
Definition contains (container : value) (k : string) : result bool :=
  match container with
  | VDict d => Return (bool_decide (is_Some (d !! k)))
  | VList l =>
      Return (existsb (fun x => match x with
                                | VStr s => String.eqb s k
                                | _ => false
                                end) l)
  | VStr s =>
      Return (match String.index 0 k s with Some _ => true | None => false end)
  | _ => Raise TypeError
  end.

(** [obj.get(k)]: only dictionaries have the method. *)
Definition get_method (obj : value) (k : string) : result value :=
  match obj with
  | VDict d => Return (match d !! k with Some v => v | None => VNone end)
  | _ => Raise (OtherException "AttributeError")
  end.

(** [s.lower()]. *)
Definition lower_char (c : ascii) : ascii :=
  let n := nat_of_ascii c in
  if ((65 <=? n) && (n <=? 90)
      || (192 <=? n) && (n <=? 222) && negb (n =? 215))%nat
  then ascii_of_nat (n + 32) else c.

Fixpoint str_lower (s : string) : string :=
  match s with
  | EmptyString => EmptyString
  | String c rest => String (lower_char c) (str_lower rest)
  end.

Definition lower_method (obj : value) : result value :=
  match obj with
  | VStr s => Return (VStr (str_lower s))
  | _ => Raise (OtherException "AttributeError")
  end.

(** [for item in obj]: the items a loop over [obj] sees.  A loop over a
    dictionary sees its keys. *)
Definition items_of (obj : value) : result (list value) :=
  match obj with
  | VList l => Return l
  | VDict d => Return (map (fun kv => VStr kv.1) (map_to_list d))
  | VStr s => Return (map (fun c => VStr (String c EmptyString)) (String.list_ascii_of_string s))
  | _ => Raise TypeError
  end.

(** [coordinator.data], typed [dict | None] by the base class. *)
Definition coordinator_data {C} (coordinator : NOAAWeatherDataUpdateCoordinator C)
  : value :=
  match read coordinator with
  | Some data => VDict data
  | None => VNone
  end.

(** ** __init__.py: setting up and unloading an entry *)

(** [DOMAIN] comes from the integration's [const] module. *)
Variable DOMAIN : string.

(** A config entry: its id, and its [data] with the types [__init__]
    annotates (an absent latitude or longitude falls back on the host's). *)
Record ConfigEntry := {
  entry_id : string;
  entry_name : string;
  entry_api_key : option string;
  entry_latitude : option float;
  entry_longitude : option float
}.

(** The host object: its configured home location, and [hass.data], where
    each integration keeps a dictionary under its domain. *)
Record HomeAssistant := Hass {
  config_latitude : float;
  config_longitude : float;
  hass_data : gmap string
                (gmap string (NOAAWeatherDataUpdateCoordinator noaaweather.NOAAWeather))
}.

(** [async_setup_entry(hass, entry)] of [__init__.py], the first refresh
    taking place at [now].  [DEFAULT_HOME_LATITUDE] is bound nowhere in the
    module, so reading it raises [NameError].  The calls that only register
    listeners and forward the entry to the platforms are the host's. *)
Definition async_setup_entry (now : Z) (hass : HomeAssistant) (entry : ConfigEntry)
  : HomeAssistant * result bool :=
  if negb (truthy (VFloat (config_latitude hass)))
     || negb (truthy (VFloat (config_longitude hass)))
  then (hass, Raise (OtherException "NameError"))
  else
    let name := entry_name entry in
    let api_key := entry_api_key entry in
    let latitude :=
      match entry_latitude entry with Some x => x | None => config_latitude hass end in
    let longitude :=
      match entry_longitude entry with Some x => x | None => config_longitude hass end in
    let coordinator := __init__ api_key latitude longitude name in
    let r := request_first_refresh now coordinator in
    match r.2 with
    | Raise e => (hass, Raise e)
    | Return _ =>
        let per_entry :=
          match hass_data hass !! DOMAIN with Some d => d | None => ∅ end in
        (Hass (config_latitude hass) (config_longitude hass)
           (<[DOMAIN := <[entry_id entry := r.1]> per_entry]> (hass_data hass)),
         Return true)
    end.

(** [async_unload_entry(hass, entry)], [unload_ok] being what the host
    answers to [async_unload_platforms]. *)
Definition async_unload_entry (unload_ok : bool) (hass : HomeAssistant)
    (entry : ConfigEntry) : HomeAssistant * result bool :=
  if unload_ok then
    match hass_data hass !! DOMAIN with
    | None => (hass, Raise (KeyError (VStr DOMAIN)))
    | Some per_entry =>
        match per_entry !! entry_id entry with
        | None => (hass, Raise (KeyError (VStr (entry_id entry))))
        | Some _ =>
            (Hass (config_latitude hass) (config_longitude hass)
               (<[DOMAIN := delete (entry_id entry) per_entry]> (hass_data hass)),
             Return unload_ok)
        end
    end
  else (hass, Return unload_ok).

(** [hass.data[DOMAIN][entry.entry_id]], as both platforms start with. *)
Definition coordinator_of_entry (hass : HomeAssistant) (entry : ConfigEntry)
  : result (NOAAWeatherDataUpdateCoordinator noaaweather.NOAAWeather) :=
  match hass_data hass !! DOMAIN with
  | None => Raise (KeyError (VStr DOMAIN))
  | Some per_entry =>
      match per_entry !! entry_id entry with
      | None => Raise (KeyError (VStr (entry_id entry)))
      | Some coordinator => Return coordinator
      end
  end.

(** ** sensor.py: the sensor entities *)

(** Constants of the integration's [const] module. *)
Variables ATTR_VALUE ATTR_SPEED ATTR_DIRECTION ATTR_ENGLISH ATTR_CATEGORY : string.
Variable MAX_FORECAST_DAYS : Z.

(** [NOAAWeatherSensorDescription]: the key into the data, the name, and
    the two functions; icon, unit and class only matter to the host. *)
Record NOAAWeatherSensorDescription := Description {
  key : string;
  sensor_name : string;
  value_fn : value -> result value;
  attr_fn : value -> result (gmap string value)
}.

(** The [value_fn] and [attr_fn] lambdas of the two tables; [cast] does
    nothing at run time. *)
Definition as_is (data : value) : result value := Return data.

Definition value_of (data : value) : result value :=
  getitem data (VStr ATTR_VALUE).

Definition speed_of (data : value) : result value :=
  let! speed := getitem data (VStr ATTR_SPEED) in
  getitem speed (VStr ATTR_VALUE).

Definition category_of (data : value) : result value :=
  getitem data (VStr ATTR_CATEGORY).

Definition localized_text_of (data : value) : result value :=
  let! text := getitem data (VStr "LocalizedText") in
  lower_method text.

Definition no_attributes (_ : value) : result (gmap string value) := Return ∅.

Definition direction_attribute (data : value) : result (gmap string value) :=
  let! direction := getitem data (VStr ATTR_DIRECTION) in
  let! english := getitem direction (VStr ATTR_ENGLISH) in
  Return (dict_of [("direction", english)]).

Definition type_attribute (data : value) : result (gmap string value) :=
  let! type := getitem data (VStr "PrecipitationType") in
  Return (dict_of [("type", type)]).

Definition FORECAST_SENSOR_TYPES : list NOAAWeatherSensorDescription := [
  Description "AirQuality" "Air quality" category_of no_attributes;
  Description "CloudCoverDay" "Cloud cover day" as_is no_attributes;
  Description "CloudCoverNight" "Cloud cover night" as_is no_attributes;
  Description "HoursOfSun" "Hours of sun" as_is no_attributes;
  Description "LongPhraseDay" "Condition day" as_is no_attributes;
  Description "LongPhraseNight" "Condition night" as_is no_attributes;
  Description "RealFeelTemperatureMax" "RealFeel temperature max" value_of no_attributes;
  Description "RealFeelTemperatureMin" "RealFeel temperature min" value_of no_attributes;
  Description "ThunderstormProbabilityDay" "Thunderstorm probability day" as_is no_attributes;
  Description "ThunderstormProbabilityNight" "Thunderstorm probability night" as_is no_attributes;
  Description "WindGustDay" "Wind gust day" speed_of direction_attribute;
  Description "WindGustNight" "Wind gust night" speed_of direction_attribute;
  Description "WindDay" "Wind day" speed_of direction_attribute;
  Description "WindNight" "Wind night" speed_of direction_attribute
].

Definition SENSOR_TYPES : list NOAAWeatherSensorDescription := [
  Description "ApparentTemperature" "Apparent temperature" value_of no_attributes;
  Description "Ceiling" "Cloud ceiling" value_of no_attributes;
  Description "CloudCover" "Cloud cover" as_is no_attributes;
  Description "DewPoint" "Dew point" value_of no_attributes;
  Description "RealFeelTemperature" "RealFeel temperature" value_of no_attributes;
  Description "RealFeelTemperatureShade" "RealFeel temperature shade" value_of no_attributes;
  Description "Precipitation" "Precipitation" value_of type_attribute;
  Description "PressureTendency" "Pressure tendency" localized_text_of no_attributes;
  Description "WindChillTemperature" "Wind chill temperature" value_of no_attributes;
  Description "Wind" "Wind" speed_of no_attributes;
  Description "WindGust" "Wind gust" speed_of no_attributes
].

(** [_get_sensor_data(coordinator.data, kind, forecast_day)], the data
    being [None] as long as no refresh succeeded. *)
Definition get_sensor_data_of (data : value) (kind : string)
    (forecast_day : option Z) : result value :=
  match data with
  | VDict sensors => _get_sensor_data sensors kind forecast_day
  | _ =>
      match forecast_day with
      | Some day =>
          let! days := getitem data (VStr ATTR_FORECAST) in
          let! entry := getitem days (VInt day) in
          getitem entry (VStr kind)
      | None => get_method data kind
      end
  end.

(** What [NOAAWeatherSensor.__init__] sets; the entity reads the data of
    its coordinator whenever it needs them. *)
Record NOAAWeatherSensor := Sensor {
  entity_description : NOAAWeatherSensorDescription;
  _sensor_data : value;
  _attr_name : option string;
  _attr_unique_id : string;
  forecast_day : option Z
}.

(** [NOAAWeatherSensor.__init__(self, coordinator, description,
    forecast_day=None)]. *)
Definition NOAAWeatherSensor_init {C}
    (coordinator : NOAAWeatherDataUpdateCoordinator C)
    (description : NOAAWeatherSensorDescription) (forecast_day : option Z)
  : result NOAAWeatherSensor :=
  let! data := get_sensor_data_of (coordinator_data coordinator)
                 (key description) forecast_day in
  match forecast_day with
  | Some day =>
      Return (Sensor description data
                (Some (sensor_name description ++ " " ++ pretty day ++ "d"))
                (str_lower (location_key coordinator ++ "-" ++ key description
                            ++ "-" ++ pretty day))
                forecast_day)
  | None =>
      Return (Sensor description data None
                (str_lower (location_key coordinator ++ "-" ++ key description))
                forecast_day)
  end.

(** The sensor [NOAAWeatherSensor.__init__] builds once it has read the
    data. *)
Definition sensor_for {C} (coordinator : NOAAWeatherDataUpdateCoordinator C)
    (description : NOAAWeatherSensorDescription)
    (day : option Z) (data : value) : NOAAWeatherSensor :=
  match day with
  | Some d =>
      Sensor description data
        (Some (sensor_name description ++ " " ++ pretty d ++ "d"))
        (str_lower (location_key coordinator ++ "-" ++ key description
                    ++ "-" ++ pretty d))
        day
  | None =>
      Sensor description data None
        (str_lower (location_key coordinator ++ "-" ++ key description))
        day
  end.

(** [NOAAWeatherSensor.native_value]. *)
Definition native_value (self : NOAAWeatherSensor) : result value :=
  value_fn (entity_description self) (_sensor_data self).

(** [NOAAWeatherSensor.extra_state_attributes]. *)
Definition extra_state_attributes {C}
    (coordinator : NOAAWeatherDataUpdateCoordinator C) (self : NOAAWeatherSensor)
  : result (gmap string value) :=
  match forecast_day self with
  | Some _ => attr_fn (entity_description self) (_sensor_data self)
  | None => attr_fn (entity_description self) (coordinator_data coordinator)
  end.

(** [NOAAWeatherSensor._handle_coordinator_update]: the entity as it is
    once the data were read again (writing the state is the host's). *)
Definition _handle_coordinator_update {C}
    (coordinator : NOAAWeatherDataUpdateCoordinator C) (self : NOAAWeatherSensor)
  : result NOAAWeatherSensor :=
  let! data := get_sensor_data_of (coordinator_data coordinator)
                 (key (entity_description self)) (forecast_day self) in
  Return (Sensor (entity_description self) data (_attr_name self)
            (_attr_unique_id self) (forecast_day self)).

(** The condition of the inner loop of [async_setup_entry]:
    [coordinator.data[ATTR_FORECAST] and
     description.key in coordinator.data[ATTR_FORECAST][0]]. *)
Definition has_forecast_key {C}
    (coordinator : NOAAWeatherDataUpdateCoordinator C)
    (description : NOAAWeatherSensorDescription) : result bool :=
  let! days := getitem (coordinator_data coordinator) (VStr ATTR_FORECAST) in
  if truthy days then
    let! days := getitem (coordinator_data coordinator) (VStr ATTR_FORECAST) in
    let! first := getitem days (VInt 0) in
    contains first (key description)
  else Return false.

(** The inner loop, for one day. *)
Fixpoint add_forecast_sensors {C}
    (coordinator : NOAAWeatherDataUpdateCoordinator C) (day : Z)
    (descriptions : list NOAAWeatherSensorDescription)
    (sensors : list NOAAWeatherSensor) : result (list NOAAWeatherSensor) :=
  match descriptions with
  | [] => Return sensors
  | description :: rest =>
      let! wanted := has_forecast_key coordinator description in
      if wanted then
        let! sensor := NOAAWeatherSensor_init coordinator description (Some day) in
        add_forecast_sensors coordinator day rest (sensors ++ [sensor])
      else add_forecast_sensors coordinator day rest sensors
  end.

(** The outer loop. *)
Fixpoint add_forecast_days {C}
    (coordinator : NOAAWeatherDataUpdateCoordinator C) (days : list Z)
    (sensors : list NOAAWeatherSensor) : result (list NOAAWeatherSensor) :=
  match days with
  | [] => Return sensors
  | day :: rest =>
      let! sensors := add_forecast_sensors coordinator day FORECAST_SENSOR_TYPES sensors in
      add_forecast_days coordinator rest sensors
  end.

(** The entities [async_setup_entry] of [sensor.py] hands to
    [async_add_entities], for the coordinator it found in [hass.data]. *)
Definition sensor_entities {C}
    (coordinator : NOAAWeatherDataUpdateCoordinator C)
  : result (list NOAAWeatherSensor) :=
  let! sensors :=
    mapM (fun description => NOAAWeatherSensor_init coordinator description None)
         SENSOR_TYPES in
  if forecast coordinator then
    add_forecast_days coordinator (range (MAX_FORECAST_DAYS + 1)) sensors
  else Return sensors.

(** [async_setup_entry(hass, entry, async_add_entities)] of [sensor.py]. *)
Definition sensor_async_setup_entry (hass : HomeAssistant) (entry : ConfigEntry)
  : result (list NOAAWeatherSensor) :=
  let! coordinator := coordinator_of_entry hass entry in
  sensor_entities coordinator.

(** *** Notions used to state the results on the sensor entities *)

(** The unique id [NOAAWeatherSensor.__init__] computes from the location
    key of the coordinator, the key of the description and the day. *)
Definition unique_id_for (location_key key : string) (day : option Z) : string :=
  match day with
  | Some d => str_lower (location_key ++ "-" ++ key ++ "-" ++ pretty d)
  | None => str_lower (location_key ++ "-" ++ key)
  end.

(** What tells two sensors of one coordinator apart. *)
Definition tag_of (sensor : NOAAWeatherSensor) : string * option Z :=
  (key (entity_description sensor), forecast_day sensor).

(** The keys of the two tables. *)
Definition all_keys : list string :=
  map key SENSOR_TYPES ++ map key FORECAST_SENSOR_TYPES.

(** The part of a string before its first hyphen, and the part after it. *)
Fixpoint before_hyphen (s : string) : string :=
  match s with
  | EmptyString => EmptyString
  | String c rest =>
      if Ascii.eqb c "-" then EmptyString else String c (before_hyphen rest)
  end.

Fixpoint after_hyphen (s : string) : option string :=
  match s with
  | EmptyString => None
  | String c rest => if Ascii.eqb c "-" then Some rest else after_hyphen rest
  end.

(** ** weather.py: the weather entity *)

(** [CONDITION_CLASSES] of the [const] module, in the order of its items:
    the icon numbers of each condition. *)
Variable CONDITION_CLASSES : list (string * list Z).

(** The keys of the host's weather component, and its
    [utc_from_timestamp(...).isoformat()]. *)
Variables ATTR_FORECAST_TIME ATTR_FORECAST_CLOUD_COVERAGE
          ATTR_FORECAST_NATIVE_TEMP ATTR_FORECAST_NATIVE_TEMP_LOW
          ATTR_FORECAST_NATIVE_APPARENT_TEMP ATTR_FORECAST_NATIVE_PRECIPITATION
          ATTR_FORECAST_PRECIPITATION_PROBABILITY
          ATTR_FORECAST_NATIVE_WIND_SPEED ATTR_FORECAST_NATIVE_WIND_GUST_SPEED
          ATTR_FORECAST_WIND_BEARING ATTR_FORECAST_CONDITION : string.
Variable utc_isoformat : value -> result value.

(** [[k for k, v in classes.items() if icon in v]], the expression [icon]
    being evaluated once for every item. *)
Fixpoint conditions_of (icon : result value) (classes : list (string * list Z))
  : result (list string) :=
  match classes with
  | [] => Return []
  | (k, v) :: rest =>
      let! x := icon in
      let! ks := conditions_of icon rest in
      Return (if in_ints x v then k :: ks else ks)
  end.

(** [l[0]] for the list a comprehension built. *)
Definition first_of (l : list string) : result value :=
  match l with
  | k :: _ => Return (VStr k)
  | [] => Raise IndexError
  end.

(** [NOAAWeatherEntity.condition]. *)
Definition condition {C} (coordinator : NOAAWeatherDataUpdateCoordinator C)
  : result value :=
  match
    (let! ks := conditions_of
                  (getitem (coordinator_data coordinator) (VStr "WeatherIcon"))
                  CONDITION_CLASSES in
     first_of ks)
  with
  | Raise IndexError => Return VNone
  | r => r
  end.

(** The plain readings. *)
Definition cloud_coverage {C} (coordinator : NOAAWeatherDataUpdateCoordinator C)
  : result value :=
  getitem (coordinator_data coordinator) (VStr "CloudCover").

Definition native_apparent_temperature {C}
    (coordinator : NOAAWeatherDataUpdateCoordinator C) : result value :=
  let! x := getitem (coordinator_data coordinator) (VStr "ApparentTemperature") in
  getitem x (VStr ATTR_VALUE).

Definition native_temperature {C}
    (coordinator : NOAAWeatherDataUpdateCoordinator C) : result value :=
  let! x := getitem (coordinator_data coordinator) (VStr "Temperature") in
  getitem x (VStr ATTR_VALUE).

Definition native_pressure {C}
    (coordinator : NOAAWeatherDataUpdateCoordinator C) : result value :=
  let! x := get_method (coordinator_data coordinator) "Pressure" in
  get_method x ATTR_VALUE.

Definition native_dew_point {C}
    (coordinator : NOAAWeatherDataUpdateCoordinator C) : result value :=
  let! x := getitem (coordinator_data coordinator) (VStr "DewPoint") in
  getitem x (VStr ATTR_VALUE).

Definition humidity {C} (coordinator : NOAAWeatherDataUpdateCoordinator C)
  : result value :=
  getitem (coordinator_data coordinator) (VStr "RelativeHumidity").

Definition native_wind_gust_speed {C}
    (coordinator : NOAAWeatherDataUpdateCoordinator C) : result value :=
  let! x := getitem (coordinator_data coordinator) (VStr "WindGust") in
  let! y := getitem x (VStr ATTR_SPEED) in
  getitem y (VStr ATTR_VALUE).

Definition native_wind_speed {C}
    (coordinator : NOAAWeatherDataUpdateCoordinator C) : result value :=
  let! x := getitem (coordinator_data coordinator) (VStr "Wind") in
  let! y := getitem x (VStr ATTR_SPEED) in
  getitem y (VStr ATTR_VALUE).

Definition wind_bearing {C} (coordinator : NOAAWeatherDataUpdateCoordinator C)
  : result value :=
  let! x := getitem (coordinator_data coordinator) (VStr "Wind") in
  let! y := getitem x (VStr ATTR_DIRECTION) in
  getitem y (VStr "Degrees").

Definition native_visibility {C}
    (coordinator : NOAAWeatherDataUpdateCoordinator C) : result value :=
  let! x := getitem (coordinator_data coordinator) (VStr "Visibility") in
  getitem x (VStr ATTR_VALUE).

(** One element of the list [NOAAWeatherEntity.forecast] builds: the
    entries of the display are evaluated from top to bottom. *)
Definition forecast_entry (item : value) : result value :=
  let! epoch := getitem item (VStr "EpochDate") in
  let! time := utc_isoformat epoch in
  let! cloud := getitem item (VStr "CloudCoverDay") in
  let! tmax := getitem item (VStr "TemperatureMax") in
  let! temp := getitem tmax (VStr ATTR_VALUE) in
  let! tmin := getitem item (VStr "TemperatureMin") in
  let! templow := getitem tmin (VStr ATTR_VALUE) in
  let! feel := getitem item (VStr "RealFeelTemperatureMax") in
  let! apparent := getitem feel (VStr ATTR_VALUE) in
  let! liquid := getitem item (VStr "TotalLiquidDay") in
  let! precipitation := getitem liquid (VStr ATTR_VALUE) in
  let! probability := getitem item (VStr "PrecipitationProbabilityDay") in
  let! wind := getitem item (VStr "WindDay") in
  let! wind_speed := getitem wind (VStr ATTR_SPEED) in
  let! speed := getitem wind_speed (VStr ATTR_VALUE) in
  let! gust := getitem item (VStr "WindGustDay") in
  let! gust_speed := getitem gust (VStr ATTR_SPEED) in
  let! gust_value := getitem gust_speed (VStr ATTR_VALUE) in
  let! wind' := getitem item (VStr "WindDay") in
  let! direction := getitem wind' (VStr ATTR_DIRECTION) in
  let! bearing := getitem direction (VStr "Degrees") in
  let! ks := conditions_of (getitem item (VStr "IconDay")) CONDITION_CLASSES in
  let! cond := first_of ks in
  Return (VDict (dict_of [
    (ATTR_FORECAST_TIME, time);
    (ATTR_FORECAST_CLOUD_COVERAGE, cloud);
    (ATTR_FORECAST_NATIVE_TEMP, temp);
    (ATTR_FORECAST_NATIVE_TEMP_LOW, templow);
    (ATTR_FORECAST_NATIVE_APPARENT_TEMP, apparent);
    (ATTR_FORECAST_NATIVE_PRECIPITATION, precipitation);
    (ATTR_FORECAST_PRECIPITATION_PROBABILITY, probability);
    (ATTR_FORECAST_NATIVE_WIND_SPEED, speed);
    (ATTR_FORECAST_NATIVE_WIND_GUST_SPEED, gust_value);
    (ATTR_FORECAST_WIND_BEARING, bearing);
    (ATTR_FORECAST_CONDITION, cond)])).

(** [NOAAWeatherEntity.forecast]. *)
Definition entity_forecast {C} (coordinator : NOAAWeatherDataUpdateCoordinator C)
  : result value :=
  if negb (forecast coordinator) then Return VNone
  else
    let! days := getitem (coordinator_data coordinator) (VStr ATTR_FORECAST) in
    let! items := items_of days in
    let! entries := mapM forecast_entry items in
    Return (VList entries).

(** *** Hosts, entries and data used as concrete instances below *)

(** A host with a home location, and one without. *)
Definition located_host : HomeAssistant := Hass 52.1 4.3 ∅.

Definition unlocated_host : HomeAssistant := Hass 0 4.3 ∅.

Definition first_entry : ConfigEntry :=
  {| entry_id := "entry-1"; entry_name := "Home"; entry_api_key := None;
     entry_latitude := Some 40.7%float; entry_longitude := None |}.

Definition second_entry : ConfigEntry :=
  {| entry_id := "entry-2"; entry_name := "Cabin"; entry_api_key := Some "k3y";
     entry_latitude := None; entry_longitude := None |}.

(** A coordinator of the stub client that holds the given data. *)
Definition coordinator_holding (data : gmap string value)
  : NOAAWeatherDataUpdateCoordinator noaaweather.NOAAWeather :=
  Coordinator None "NOAA" true 40.7 (-74.0) "Home" noaaweather.NOAAWeather_instance
    (DataUpdateCoordinator.State (timedelta_minutes 10) (Some data) (Some 0)
       None []).

(** Data whose forecast is empty. *)
Definition data_without_days : gmap string value :=
  dict_of [("CloudCover", VInt 30); ("WeatherIcon", VInt 34);
           ("forecast", VList [])].

(** Data with five equal forecast days, of an icon no condition lists. *)
Definition plain_day : gmap string value :=
  dict_of [("CloudCoverDay", VInt 40); ("IconDay", VInt 99)].

Definition data_with_five_days : gmap string value :=
  dict_of [("CloudCover", VInt 30); ("WeatherIcon", VInt 34);
           ("Pressure", noaaweather.unit_value "mb" 14 (VFloat 1013.2));
           ("forecast", VList (replicate 5 (VDict plain_day)))].

(** A table of conditions, and a stand-in for the host's time format. *)
Definition some_conditions : list (string * list Z) :=
  [("clear-night", [33; 34; 37]); ("cloudy", [7; 8; 38]);
   ("partlycloudy", [3; 4; 6; 35; 36]); ("sunny", [1; 2; 5])].

Definition epoch_as_text (epoch : value) : result value :=
  match epoch with
  | VInt n => Return (VStr (pretty n))
  | _ => Raise TypeError
  end.

(** ** Properties *)

(** *** The error classes *)

(** C7: a client failure is an instance of exactly one of the four
    classes (connection, credential, quota, generic API error), each of
    them an [ApiError]; and calling any of the four classes yields an
    instance of that class that carries the message (behind the text of
    its class), the status code and the response it was given, the last
    two being [None] when left out. *)
Theorem api_errors_four_kinds_with_payload :
  (forall c : noaaweather.error_class, c ∈ noaaweather.all_classes)
  /\ NoDup noaaweather.all_classes
  /\ length noaaweather.all_classes = 4%nat
  /\ (forall c, noaaweather.issubclass c noaaweather.ApiError = true)
  /\ (forall c message status_code response,
        let e := noaaweather.new c message status_code response in
        noaaweather.cls e = c
        /\ noaaweather.message e = noaaweather.message_prefix c ++ message
        /\ noaaweather.status_code e = status_code
        /\ noaaweather.response e = response)
  /\ (forall c message,
        let e := noaaweather.new_default c message in
        noaaweather.status_code e = None /\ noaaweather.response e = None).
Proof.
  repeat split.
  - intros c. unfold noaaweather.all_classes. destruct c; set_solver.
  - compute_done.
  - now destruct c.
  - now destruct c.
  - now destruct c.
  - now destruct c.
  - now destruct c.
  - now destruct c.
Qed.

(** *** The stub client *)

(** C9: whatever latitude, longitude, url and key two clients are built
    with, their current conditions are the same fixed mapping and their
    daily forecasts the same fixed list of two entries, also as the
    coordinator awaits them. *)
Theorem stub_client_ignores_configuration
    (lat1 lon1 lat2 lon2 : float) (url1 key1 url2 key2 : option string) :
  let a := noaaweather.NOAAWeather_init lat1 lon1 url1 key1 in
  let b := noaaweather.NOAAWeather_init lat2 lon2 url2 key2 in
  noaaweather.async_get_current_conditions a
    = noaaweather.async_get_current_conditions b
  /\ noaaweather.async_get_daily_forecast a
    = noaaweather.async_get_daily_forecast b
  /\ noaaweather.async_get_daily_forecast a
    = [noaaweather.forecast_day0; noaaweather.forecast_day1]
  /\ length (noaaweather.async_get_daily_forecast a) = 2%nat
  /\ get_current_conditions a = get_current_conditions b
  /\ get_daily_forecast a = get_daily_forecast b.
Proof. intros a b. repeat split. Qed.

(** *** The timed block *)

Section Fetch.
Context `{DataSource C}.

Lemma fetch_current_late (client : C) :
  10 * 1000 < took (get_current_conditions client) ->
  fetch client = Raise TimeoutError.
Proof.
  intros Hlate. unfold fetch, timeout, timed_bind, await.
  destruct (Z.ltb_spec (10 * 1000) (0 + took (get_current_conditions client)));
    [reflexivity | lia].
Qed.

Lemma fetch_forecast_late (client : C) current :
  took (get_current_conditions client) <= 10 * 1000 ->
  outcome (get_current_conditions client) = Return current ->
  10 * 1000 < took (get_current_conditions client)
              + took (get_daily_forecast client) ->
  fetch client = Raise TimeoutError.
Proof.
  intros Hin Hcur Hlate. unfold fetch, timeout, timed_bind, await.
  destruct (Z.ltb_spec (10 * 1000) (0 + took (get_current_conditions client)));
    [lia |].
  rewrite Hcur.
  destruct (Z.ltb_spec (10 * 1000)
              (0 + took (get_current_conditions client)
               + took (get_daily_forecast client))); [reflexivity | lia].
Qed.

Lemma fetch_in_time (client : C) current forecast :
  0 <= took (get_current_conditions client) ->
  0 <= took (get_daily_forecast client) ->
  took (get_current_conditions client)
    + took (get_daily_forecast client) <= 10 * 1000 ->
  outcome (get_current_conditions client) = Return current ->
  outcome (get_daily_forecast client) = Return forecast ->
  fetch client = Return (current, forecast).
Proof.
  intros H0 H1 Hin Hcur Hfc. unfold fetch, timeout, timed_bind, await, timed_ret.
  destruct (Z.ltb_spec (10 * 1000) (0 + took (get_current_conditions client)));
    [lia |].
  rewrite Hcur.
  destruct (Z.ltb_spec (10 * 1000)
              (0 + took (get_current_conditions client)
               + took (get_daily_forecast client))); [lia |].
  now rewrite Hfc.
Qed.

(** Every class is caught by the [except] clause, the base class being
    listed. *)
Lemma except_clause_catches (error : noaaweather.api_exception) :
  existsb (noaaweather.issubclass (noaaweather.cls error)) caught = true.
Proof. reflexivity. Qed.

Lemma update_data_success (self : NOAAWeatherDataUpdateCoordinator C)
    current forecast :
  fetch (noaaweather self) = Return (current, forecast) ->
  _async_update_data self
    = Return (<[ATTR_FORECAST := VList forecast]> current).
Proof. intros Hf. unfold _async_update_data. now rewrite Hf. Qed.

Lemma update_data_api_error (self : NOAAWeatherDataUpdateCoordinator C)
    error :
  fetch (noaaweather self) = Raise (ApiException error) ->
  _async_update_data self = Raise (UpdateFailed error).
Proof. intros Hf. unfold _async_update_data. now rewrite Hf. Qed.

Lemma update_data_other (self : NOAAWeatherDataUpdateCoordinator C) e :
  fetch (noaaweather self) = Raise e ->
  (forall error, e <> ApiException error) ->
  _async_update_data self = Raise e.
Proof.
  intros Hf Hne. unfold _async_update_data. rewrite Hf.
  destruct e; try reflexivity. now destruct (Hne e).
Qed.

Lemma fetch_both_return (client : C) current forecast :
  outcome (get_current_conditions client) = Return current ->
  outcome (get_daily_forecast client) = Return forecast ->
  took (get_current_conditions client) <= 10 * 1000 ->
  took (get_current_conditions client)
    + took (get_daily_forecast client) <= 10 * 1000 ->
  fetch client = Return (current, forecast).
Proof.
  intros Hcur Hfc Ha Hb. unfold fetch, timeout, timed_bind, await, timed_ret.
  destruct (Z.ltb_spec (10 * 1000) (0 + took (get_current_conditions client)));
    [lia |].
  rewrite Hcur.
  destruct (Z.ltb_spec (10 * 1000)
              (0 + took (get_current_conditions client)
               + took (get_daily_forecast client))); [lia |].
  now rewrite Hfc.
Qed.

Lemma fetch_current_raises (client : C) e :
  took (get_current_conditions client) <= 10 * 1000 ->
  outcome (get_current_conditions client) = Raise e ->
  fetch client = Raise e.
Proof.
  intros Ha Hcur. unfold fetch, timeout, timed_bind, await.
  destruct (Z.ltb_spec (10 * 1000) (0 + took (get_current_conditions client)));
    [lia |].
  now rewrite Hcur.
Qed.

Lemma fetch_forecast_raises (client : C) current e :
  outcome (get_current_conditions client) = Return current ->
  took (get_current_conditions client)
    + took (get_daily_forecast client) <= 10 * 1000 ->
  took (get_current_conditions client) <= 10 * 1000 ->
  outcome (get_daily_forecast client) = Raise e ->
  fetch client = Raise e.
Proof.
  intros Hcur Hb Ha Hfc. unfold fetch, timeout, timed_bind, await.
  destruct (Z.ltb_spec (10 * 1000) (0 + took (get_current_conditions client)));
    [lia |].
  rewrite Hcur.
  destruct (Z.ltb_spec (10 * 1000)
              (0 + took (get_current_conditions client)
               + took (get_daily_forecast client))); [lia |].
  now rewrite Hfc.
Qed.

End Fetch.

(** *** Refreshing *)

(** C1 (amended): when both client calls of a refresh return, one after
    the other within the ten seconds, [read()] afterwards returns a
    snapshot that holds the forecast list the client returned under the
    reserved key [ATTR_FORECAST] and, under every other key, exactly what
    the current-conditions mapping of the client holds there: its keys are
    those of that mapping and the reserved key, no field under another key
    is dropped, renamed or added, and a field the client itself puts under
    the reserved key gives way to the forecast.  So when the client's
    mapping has no field under the reserved key, every one of its fields is
    in the snapshot. *)
Theorem successful_refresh_snapshot_is_union `{DataSource C}
    (self : NOAAWeatherDataUpdateCoordinator C) (now : Z)
    (current : gmap string value) (forecast : list value) :
  outcome (get_current_conditions (noaaweather self)) = Return current ->
  outcome (get_daily_forecast (noaaweather self)) = Return forecast ->
  took (get_current_conditions (noaaweather self)) <= 10 * 1000 ->
  took (get_current_conditions (noaaweather self))
    + took (get_daily_forecast (noaaweather self)) <= 10 * 1000 ->
  exists snap : gmap string value,
    _async_update_data self = Return snap
    /\ read (refresh now self).1 = Some snap
    /\ snap = {[ATTR_FORECAST := VList forecast]} ∪ current
    /\ dom snap = dom current ∪ {[ATTR_FORECAST]}
    /\ snap !! ATTR_FORECAST = Some (VList forecast)
    /\ (forall k, k <> ATTR_FORECAST -> snap !! k = current !! k)
    /\ (current !! ATTR_FORECAST = None ->
         forall k v, current !! k = Some v -> snap !! k = Some v).
Proof.
  intros Hcur Hfc Ha Hb.
  pose proof (fetch_both_return _ _ _ Hcur Hfc Ha Hb) as Hf.
  exists (<[ATTR_FORECAST := VList forecast]> current).
  split; [| split; [| split; [| split; [| split; [| split]]]]].
  - now apply update_data_success.
  - unfold read, refresh. rewrite (update_data_success self _ _ Hf). reflexivity.
  - apply insert_union_singleton_l.
  - rewrite dom_insert_L. apply (comm_L (∪)).
  - apply lookup_insert_eq.
  - intros k Hk. now apply lookup_insert_ne.
  - intros Hfree k v Hkv. rewrite lookup_insert_ne; [assumption |].
    intros ->. congruence.
Qed.

(** C2 (amended): with the stub client, the first refresh succeeds and
    [read()] then yields a snapshot whose [Temperature] field is the
    mapping with unit [C], unit type 17 and value 25.5, whose
    [RelativeHumidity] field is 62, and whose forecast field is the
    client's list of two entries in the client's order. *)
Theorem first_refresh_with_stub_client
    (key : option string) (latitude longitude : float) (title : string)
    (now : Z) :
  ATTR_FORECAST <> "Temperature" ->
  ATTR_FORECAST <> "RelativeHumidity" ->
  let self := __init__ key latitude longitude title in
  let r := request_first_refresh now self in
  r.2 = Return tt
  /\ exists (snap temperature : gmap string value) (days : list value),
       _async_update_data self = Return snap
       /\ read r.1 = Some snap
       /\ snap !! "Temperature" = Some (VDict temperature)
       /\ temperature
          = dict_of [("Unit", VStr "C"); ("UnitType", VInt 17);
                     ("Value", VFloat 25.5)]
       /\ temperature !! "Value" = Some (VFloat 25.5)
       /\ snap !! "RelativeHumidity" = Some (VInt 62)
       /\ snap !! ATTR_FORECAST = Some (VList days)
       /\ length days = 2%nat
       /\ days = noaaweather.async_get_daily_forecast (noaaweather self)
       /\ days !! 0%nat = Some noaaweather.forecast_day0
       /\ days !! 1%nat = Some noaaweather.forecast_day1.
Proof.
  intros Ht Hr self r.
  assert (Hf : fetch (noaaweather self)
               = Return (noaaweather.async_get_current_conditions (noaaweather self),
                         noaaweather.async_get_daily_forecast (noaaweather self)))
    by reflexivity.
  pose proof (update_data_success self _ _ Hf) as Hu.
  subst r. unfold request_first_refresh, read. rewrite Hu. cbn [fst snd].
  split; [reflexivity |].
  eexists _, _, _. split; [reflexivity |]. split; [reflexivity |].
  split; [rewrite lookup_insert_ne by assumption; vm_compute; reflexivity |].
  split; [vm_compute; reflexivity |].
  split; [vm_compute; reflexivity |].
  split; [rewrite lookup_insert_ne by assumption; vm_compute; reflexivity |].
  split; [apply lookup_insert_eq |].
  repeat split.
Qed.

(** C3: when a client call of a refresh fails with one of the classified
    errors, the refresh leaves the coordinator as it was but for the
    last-error field: [read()] returns what it returned before, the time
    of the last update is unchanged, and the failure, with the client
    error it stands for, is in the last-error field. *)
Theorem failed_refresh_keeps_snapshot `{DataSource C}
    (self : NOAAWeatherDataUpdateCoordinator C) (now : Z)
    (error : noaaweather.api_exception) :
  fetch (noaaweather self) = Raise (ApiException error) ->
  let self' := (refresh now self).1 in
  read self' = read self
  /\ DataUpdateCoordinator.last_updated (base self')
     = DataUpdateCoordinator.last_updated (base self)
  /\ with_base self' (base self) = self
  /\ last_error self' = Some (UpdateFailed error)
  /\ error_kind (UpdateFailed error) = Some (noaaweather.cls error).
Proof.
  intros Hf self'. subst self'. unfold refresh, read, last_error.
  rewrite (update_data_api_error self _ Hf). cbn.
  repeat split. now destruct self.
Qed.

(** C4 (amended): a client error of one of the four classes leaves
    [_async_update_data] as an [UpdateFailed] that carries it, so that its
    class stays known; a client call that is not done when the ten
    seconds are over leaves it as a [TimeoutError], which stands for none
    of the four classes; and nothing else is changed on the way out: a
    failure is either such an [UpdateFailed], or what the timed block
    raised, that not being a client error. *)
Theorem refresh_failures_classified_except_timeout `{DataSource C}
    (self : NOAAWeatherDataUpdateCoordinator C) :
  (forall error,
      fetch (noaaweather self) = Raise (ApiException error) ->
      _async_update_data self = Raise (UpdateFailed error)
      /\ error_kind (UpdateFailed error) = Some (noaaweather.cls error)
      /\ noaaweather.cls error ∈ noaaweather.all_classes)
  /\ (10 * 1000 < took (get_current_conditions (noaaweather self)) ->
      _async_update_data self = Raise TimeoutError)
  /\ (forall current,
      took (get_current_conditions (noaaweather self)) <= 10 * 1000 ->
      outcome (get_current_conditions (noaaweather self)) = Return current ->
      10 * 1000 < took (get_current_conditions (noaaweather self))
                  + took (get_daily_forecast (noaaweather self)) ->
      _async_update_data self = Raise TimeoutError)
  /\ error_kind TimeoutError = None
  /\ (forall e,
      _async_update_data self = Raise e ->
      (exists error,
          e = UpdateFailed error
          /\ fetch (noaaweather self) = Raise (ApiException error))
      \/ (fetch (noaaweather self) = Raise e
          /\ forall error, e <> ApiException error)).
Proof.
  split; [| split; [| split; [| split]]].
  - intros error Hf. split; [now apply update_data_api_error |].
    split; [reflexivity |].
    unfold noaaweather.all_classes. destruct (noaaweather.cls error); set_solver.
  - intros Hlate. apply update_data_other; [now apply fetch_current_late |].
    discriminate.
  - intros current Hin Hcur Hlate.
    apply update_data_other; [now apply (fetch_forecast_late _ current) |].
    discriminate.
  - reflexivity.
  - intros e. unfold _async_update_data.
    destruct (fetch (noaaweather self)) as [[current forecast] | e'] eqn:Hf;
      [discriminate |].
    destruct e'; intros [= <-];
      try (right; split; [reflexivity | discriminate]).
    left. eexists. split; reflexivity.
Qed.

(** C5: when a client call of the first refresh raises one of the
    classified errors (the call for the current conditions, or, once that
    one returned, the call for the forecast, in either case before the ten
    seconds are over), the caller of [request_first_refresh()] gets a
    failure that carries this very error, hence the class the client gave
    it and no other; the coordinator still has no other snapshot than
    before. *)
Theorem first_refresh_failure_keeps_kind `{DataSource C}
    (self : NOAAWeatherDataUpdateCoordinator C) (now : Z)
    (error : noaaweather.api_exception) :
  (took (get_current_conditions (noaaweather self)) <= 10 * 1000
   /\ outcome (get_current_conditions (noaaweather self))
      = Raise (ApiException error))
  \/ (exists current,
        outcome (get_current_conditions (noaaweather self)) = Return current
        /\ took (get_current_conditions (noaaweather self)) <= 10 * 1000
        /\ took (get_current_conditions (noaaweather self))
           + took (get_daily_forecast (noaaweather self)) <= 10 * 1000
        /\ outcome (get_daily_forecast (noaaweather self))
           = Raise (ApiException error)) ->
  let r := request_first_refresh now self in
  r.2 = Raise (UpdateFailed error)
  /\ error_kind (UpdateFailed error) = Some (noaaweather.cls error)
  /\ (forall k, k <> noaaweather.cls error ->
        error_kind (UpdateFailed error) <> Some k)
  /\ read r.1 = read self.
Proof.
  intros Hclient r. subst r.
  assert (Hf : fetch (noaaweather self) = Raise (ApiException error)).
  { destruct Hclient as [[Ha Hcur] | (current & Hcur & Ha & Hb & Hfc)].
    - now apply fetch_current_raises.
    - now apply (fetch_forecast_raises _ current). }
  unfold request_first_refresh, read.
  rewrite (update_data_api_error self _ Hf). cbn.
  repeat split. intros k Hk [= Heq]. now apply Hk.
Qed.

(** *** Initialization *)

(** C6 (amended): initialization stores the credential, the location and
    the display name it is given and starts without a snapshot; the
    refresh interval is not taken from the configuration: whatever is
    configured, interval included, the coordinator gets the same one. *)
Theorem init_interval_not_from_configuration
    (key : option string) (latitude longitude : float) (title : string) :
  let self := __init__ key latitude longitude title in
  api_key self = key
  /\ lat self = latitude
  /\ lon self = longitude
  /\ name self = title
  /\ read self = None
  /\ (forall key' latitude' longitude' title',
        update_interval (__init__ key' latitude' longitude' title')
        = update_interval self)
  /\ (forall cfg cfg' : SpecConfiguration,
        update_interval (coordinator_for cfg)
        = update_interval (coordinator_for cfg'))
  /\ (forall cfg : SpecConfiguration,
        api_key (coordinator_for cfg) = cfg_credential cfg
        /\ lat (coordinator_for cfg) = cfg_latitude cfg
        /\ lon (coordinator_for cfg) = cfg_longitude cfg
        /\ name (coordinator_for cfg) = cfg_name cfg).
Proof. intros self. repeat split. Qed.

(** *** Sensor data *)

Lemma index_of_in_range (len : nat) (i : Z) :
  0 <= i -> i < Z.of_nat len -> index_of len i = Some (Z.to_nat i).
Proof.
  intros H0 Hlt. unfold index_of.
  destruct (Z.ltb_spec i 0); [lia |].
  destruct (Z.leb_spec 0 i); [| lia].
  destruct (Z.ltb_spec i (Z.of_nat len)); [reflexivity | lia].
Qed.

Lemma index_of_beyond (len : nat) (i : Z) :
  Z.of_nat len < i + 1 -> index_of len i = None.
Proof.
  intros Hge. unfold index_of.
  destruct (Z.ltb_spec i 0); [lia |].
  destruct (Z.leb_spec 0 i); [| reflexivity].
  destruct (Z.ltb_spec i (Z.of_nat len)); [lia | reflexivity].
Qed.

(** C10: without a forecast day [_get_sensor_data] always returns: the
    value of the key when the snapshot has it, [None] when it has not.
    With a forecast day it subscripts
    [sensors[ATTR_FORECAST][forecast_day][kind]]: it returns that value
    when it is there, and raises when the forecast list has fewer than
    [forecast_day + 1] entries, when the entry has no such key, and, for
    one, on the empty snapshot. *)
Theorem get_sensor_data_total_only_without_day
    (sensors : gmap string value) (kind : string) :
  (exists v, _get_sensor_data sensors kind None = Return v)
  /\ (forall v, sensors !! kind = Some v ->
        _get_sensor_data sensors kind None = Return v)
  /\ (sensors !! kind = None ->
        _get_sensor_data sensors kind None = Return VNone)
  /\ (forall day,
        _get_sensor_data sensors kind (Some day)
        = match getitem (VDict sensors) (VStr ATTR_FORECAST) with
          | Return days =>
              match getitem days (VInt day) with
              | Return entry => getitem entry (VStr kind)
              | Raise e => Raise e
              end
          | Raise e => Raise e
          end)
  /\ (forall day days,
        sensors !! ATTR_FORECAST = Some (VList days) ->
        Z.of_nat (length days) < day + 1 ->
        _get_sensor_data sensors kind (Some day) = Raise IndexError)
  /\ (forall day days entry,
        sensors !! ATTR_FORECAST = Some (VList days) ->
        0 <= day ->
        days !! Z.to_nat day = Some (VDict entry) ->
        entry !! kind = None ->
        _get_sensor_data sensors kind (Some day) = Raise (KeyError (VStr kind)))
  /\ (forall day days entry v,
        sensors !! ATTR_FORECAST = Some (VList days) ->
        0 <= day ->
        days !! Z.to_nat day = Some (VDict entry) ->
        entry !! kind = Some v ->
        _get_sensor_data sensors kind (Some day) = Return v)
  /\ (forall day,
        _get_sensor_data ∅ kind (Some day)
        = Raise (KeyError (VStr ATTR_FORECAST))).
Proof.
  split; [| split; [| split; [| split; [| split; [| split; [| split]]]]]].
  - unfold _get_sensor_data. eexists. reflexivity.
  - intros v Hv. unfold _get_sensor_data. now rewrite Hv.
  - intros Hv. unfold _get_sensor_data. now rewrite Hv.
  - reflexivity.
  - intros day days Hdays Hshort. unfold _get_sensor_data. cbn.
    rewrite Hdays. cbn. now rewrite (index_of_beyond _ _ Hshort).
  - intros day days entry Hdays H0 Hentry Hkind.
    unfold _get_sensor_data. cbn. rewrite Hdays. cbn.
    rewrite index_of_in_range;
      [| assumption | apply lookup_lt_Some in Hentry; lia].
    rewrite Hentry. cbn. now rewrite Hkind.
  - intros day days entry v Hdays H0 Hentry Hkind.
    unfold _get_sensor_data. cbn. rewrite Hdays. cbn.
    rewrite index_of_in_range;
      [| assumption | apply lookup_lt_Some in Hentry; lia].
    rewrite Hentry. cbn. now rewrite Hkind.
  - intros day. unfold _get_sensor_data. cbn. now rewrite lookup_empty.
Qed.

(** *** Setting up and unloading an entry *)

Lemma stub_fetch (client : noaaweather.NOAAWeather) :
  fetch client
  = Return (noaaweather.async_get_current_conditions noaaweather.NOAAWeather_instance,
            noaaweather.async_get_daily_forecast noaaweather.NOAAWeather_instance).
Proof. destruct client. reflexivity. Qed.

Lemma stub_first_refresh (k : option string) (la lo : float) (n : string) (now : Z) :
  let r := request_first_refresh now (__init__ k la lo n) in
  r.2 = Return tt
  /\ read r.1 = Some stub_snapshot
  /\ api_key r.1 = k /\ lat r.1 = la /\ lon r.1 = lo /\ name r.1 = n
  /\ location_key r.1 = "NOAA" /\ forecast r.1 = true.
Proof.
  intros r. subst r. unfold request_first_refresh, read.
  rewrite (update_data_success (__init__ k la lo n) _ _ (stub_fetch _)).
  repeat split.
Qed.

Lemma falsy_float (x : float) :
  truthy (VFloat x) = negb (PrimFloat.eqb x 0).
Proof. reflexivity. Qed.

(** Setting up an entry on a host whose home latitude or longitude is zero
    raises [NameError] and leaves the host as it was, whatever location
    the entry itself carries. *)
Theorem setup_entry_needs_host_location
    (now : Z) (hass : HomeAssistant) (entry : ConfigEntry) :
  PrimFloat.eqb (config_latitude hass) 0 = true
  \/ PrimFloat.eqb (config_longitude hass) 0 = true ->
  async_setup_entry now hass entry = (hass, Raise (OtherException "NameError")).
Proof.
  intros Hzero. unfold async_setup_entry. rewrite !falsy_float.
  destruct Hzero as [-> | ->]; cbn [negb orb]; [reflexivity |].
  now rewrite orb_true_r.
Qed.

(** On a host with a home location, setting up an entry returns [True] and
    leaves under [hass.data[DOMAIN][entry_id]] a coordinator that both
    platforms find there: it holds the entry's name and key, the entry's
    location or else the host's, and already the merged data of the stub
    client. *)
Theorem setup_entry_stores_coordinator
    (now : Z) (hass : HomeAssistant) (entry : ConfigEntry) :
  PrimFloat.eqb (config_latitude hass) 0 = false ->
  PrimFloat.eqb (config_longitude hass) 0 = false ->
  let r := async_setup_entry now hass entry in
  r.2 = Return true
  /\ exists coordinator,
       coordinator_of_entry r.1 entry = Return coordinator
       /\ name coordinator = entry_name entry
       /\ api_key coordinator = entry_api_key entry
       /\ lat coordinator
          = match entry_latitude entry with
            | Some x => x
            | None => config_latitude hass
            end
       /\ lon coordinator
          = match entry_longitude entry with
            | Some x => x
            | None => config_longitude hass
            end
       /\ read coordinator = Some stub_snapshot
       /\ update_interval coordinator = 600.
Proof.
  intros Hla Hlo r. subst r. unfold async_setup_entry.
  rewrite !falsy_float, Hla, Hlo. cbn [negb orb].
  match goal with
  | |- context [request_first_refresh now ?c] =>
      destruct (stub_first_refresh (api_key c) (lat c) (lon c) (name c) now)
        as (Hr & Hread & Hk & Hlat & Hlon & Hn & _)
  end.
  cbn [api_key lat lon name __init__] in *.
  rewrite Hr. cbn [fst snd]. split; [reflexivity |].
  eexists. split.
  - unfold coordinator_of_entry. cbn [hass_data].
    rewrite lookup_insert_eq, lookup_insert_eq. reflexivity.
  - repeat split; assumption.
Qed.

(** Setting up an entry touches nothing else in [hass.data]: the other
    domains and the other entries of the domain are as before, and so is
    the host's home location. *)
Theorem setup_entry_keeps_the_rest
    (now : Z) (hass : HomeAssistant) (entry : ConfigEntry) :
  let hass' := (async_setup_entry now hass entry).1 in
  config_latitude hass' = config_latitude hass
  /\ config_longitude hass' = config_longitude hass
  /\ (forall domain, domain <> DOMAIN ->
        hass_data hass' !! domain = hass_data hass !! domain)
  /\ (forall id, id <> entry_id entry ->
        (hass_data hass' !! DOMAIN) ≫= (.!! id)
        = (hass_data hass !! DOMAIN) ≫= (.!! id)).
Proof.
  intros hass'. subst hass'. unfold async_setup_entry.
  destruct (negb (truthy (VFloat (config_latitude hass)))
            || negb (truthy (VFloat (config_longitude hass))));
    [now repeat split |].
  match goal with
  | |- context [request_first_refresh now ?c] =>
      destruct ((request_first_refresh now c).2)
  end; [| now repeat split].
  cbn [fst config_latitude config_longitude hass_data].
  split; [reflexivity |]. split; [reflexivity |]. split.
  - intros domain Hd. now rewrite lookup_insert_ne.
  - intros id Hid. rewrite lookup_insert_eq. cbn.
    rewrite lookup_insert_ne by congruence.
    destruct (hass_data hass !! DOMAIN); [reflexivity |].
    cbn. now rewrite lookup_empty.
Qed.

(** Unloading, once the host has unloaded the platforms, removes exactly
    the coordinator of the entry: it returns [True], the entry is no longer
    found, and every other entry and domain is as before. *)
Theorem unload_entry_removes_coordinator
    (hass : HomeAssistant) (entry : ConfigEntry) coordinator :
  coordinator_of_entry hass entry = Return coordinator ->
  let r := async_unload_entry true hass entry in
  r.2 = Return true
  /\ coordinator_of_entry r.1 entry = Raise (KeyError (VStr (entry_id entry)))
  /\ (forall domain, domain <> DOMAIN ->
        hass_data r.1 !! domain = hass_data hass !! domain)
  /\ (forall id, id <> entry_id entry ->
        (hass_data r.1 !! DOMAIN) ≫= (.!! id)
        = (hass_data hass !! DOMAIN) ≫= (.!! id))
  /\ hass_data r.1 !! DOMAIN
     = delete (entry_id entry) <$> hass_data hass !! DOMAIN.
Proof.
  intros Hfound r. subst r. unfold coordinator_of_entry in Hfound.
  unfold async_unload_entry.
  destruct (hass_data hass !! DOMAIN) as [per_entry |] eqn:Hd; [| discriminate].
  destruct (per_entry !! entry_id entry) eqn:He; [| discriminate].
  cbn [fst snd]. split; [reflexivity |]. split.
  - unfold coordinator_of_entry. cbn [hass_data].
    now rewrite lookup_insert_eq, lookup_delete_eq.
  - cbn [hass_data]. split; [| split].
    + intros domain Hne. now rewrite lookup_insert_ne.
    + intros id Hid. rewrite lookup_insert_eq. cbn.
      rewrite lookup_delete_ne by congruence. reflexivity.
    + now rewrite lookup_insert_eq.
Qed.

(** Unloading changes nothing when the host could not unload the
    platforms (it then returns [False]), and it raises [KeyError], again
    changing nothing, for an entry that is not set up. *)
Theorem unload_entry_refused_or_unknown
    (hass : HomeAssistant) (entry : ConfigEntry) :
  async_unload_entry false hass entry = (hass, Return false)
  /\ (forall e, coordinator_of_entry hass entry = Raise e ->
        async_unload_entry true hass entry = (hass, Raise e)
        /\ exists k, e = KeyError (VStr k)).
Proof.
  split; [reflexivity |].
  intros e. unfold coordinator_of_entry, async_unload_entry.
  destruct (hass_data hass !! DOMAIN) as [per_entry |].
  - destruct (per_entry !! entry_id entry); [discriminate |].
    intros [= <-]. split; [reflexivity | eauto].
  - intros [= <-]. split; [reflexivity | eauto].
Qed.

(** Setting an entry up and unloading it again gives [hass.data] back as
    it was for an entry that was not set up before, but for the dictionary
    of the domain, which stays behind, empty, if it was not there. *)
Theorem setup_then_unload_restores_data
    (now : Z) (hass : HomeAssistant) (entry : ConfigEntry) :
  PrimFloat.eqb (config_latitude hass) 0 = false ->
  PrimFloat.eqb (config_longitude hass) 0 = false ->
  (hass_data hass !! DOMAIN) ≫= (.!! entry_id entry) = None ->
  let r := async_unload_entry true (async_setup_entry now hass entry).1 entry in
  r.2 = Return true
  /\ hass_data r.1
     = <[DOMAIN := match hass_data hass !! DOMAIN with
                   | Some d => d
                   | None => ∅
                   end]> (hass_data hass)
  /\ (forall d, hass_data hass !! DOMAIN = Some d -> hass_data r.1 = hass_data hass).
Proof.
  intros Hla Hlo Hfresh r. subst r. unfold async_setup_entry.
  rewrite !falsy_float, Hla, Hlo. cbn [negb orb].
  match goal with
  | |- context [request_first_refresh now ?c] =>
      destruct (stub_first_refresh (api_key c) (lat c) (lon c) (name c) now)
        as (Hr & _)
  end.
  cbn [api_key lat lon name __init__] in *. rewrite Hr. cbn [fst].
  unfold async_unload_entry. cbn [hass_data config_latitude config_longitude].
  rewrite lookup_insert_eq, lookup_insert_eq. cbn [fst snd hass_data].
  assert (Hback :
    delete (entry_id entry)
      (<[entry_id entry := (request_first_refresh now
           (__init__ (entry_api_key entry)
              match entry_latitude entry with
              | Some x => x
              | None => config_latitude hass
              end
              match entry_longitude entry with
              | Some x => x
              | None => config_longitude hass
              end (entry_name entry))).1]>
         match hass_data hass !! DOMAIN with Some d => d | None => ∅ end)
    = match hass_data hass !! DOMAIN with Some d => d | None => ∅ end).
  { rewrite delete_insert_eq. apply delete_id.
    destruct (hass_data hass !! DOMAIN); [exact Hfresh | apply lookup_empty]. }
  rewrite Hback, insert_insert_eq.
  split; [reflexivity |]. split; [reflexivity |].
  intros d Hd. rewrite Hd. now apply insert_id.
Qed.

Lemma setup_entry_on_located_host
    (now : Z) (hass : HomeAssistant) (entry : ConfigEntry) :
  PrimFloat.eqb (config_latitude hass) 0 = false ->
  PrimFloat.eqb (config_longitude hass) 0 = false ->
  async_setup_entry now hass entry
  = (Hass (config_latitude hass) (config_longitude hass)
       (<[DOMAIN :=
            <[entry_id entry :=
                (request_first_refresh now
                   (__init__ (entry_api_key entry)
                      match entry_latitude entry with
                      | Some x => x
                      | None => config_latitude hass
                      end
                      match entry_longitude entry with
                      | Some x => x
                      | None => config_longitude hass
                      end (entry_name entry))).1]>
              match hass_data hass !! DOMAIN with Some d => d | None => ∅ end]>
          (hass_data hass)),
     Return true).
Proof.
  intros Hla Hlo. unfold async_setup_entry.
  rewrite !falsy_float, Hla, Hlo. cbn [negb orb].
  match goal with
  | |- context [request_first_refresh now ?c] =>
      destruct (stub_first_refresh (api_key c) (lat c) (lon c) (name c) now)
        as (Hr & _)
  end.
  cbn [api_key lat lon name __init__] in Hr. now rewrite Hr.
Qed.

(** Two entries with different ids can be set up one after the other:
    each has its own coordinator in [hass.data], and the second set-up
    leaves the coordinator of the first where it was. *)
Theorem setup_two_entries
    (now1 now2 : Z) (hass : HomeAssistant) (entry1 entry2 : ConfigEntry) :
  PrimFloat.eqb (config_latitude hass) 0 = false ->
  PrimFloat.eqb (config_longitude hass) 0 = false ->
  entry_id entry1 <> entry_id entry2 ->
  let hass1 := (async_setup_entry now1 hass entry1).1 in
  let hass2 := (async_setup_entry now2 hass1 entry2).1 in
  exists coordinator1 coordinator2,
    coordinator_of_entry hass1 entry1 = Return coordinator1
    /\ coordinator_of_entry hass2 entry1 = Return coordinator1
    /\ coordinator_of_entry hass2 entry2 = Return coordinator2
    /\ name coordinator1 = entry_name entry1
    /\ name coordinator2 = entry_name entry2.
Proof.
  intros Hla Hlo Hne hass1 hass2. subst hass2 hass1.
  rewrite (setup_entry_on_located_host now1 hass entry1 Hla Hlo). cbn [fst].
  rewrite setup_entry_on_located_host by assumption.
  cbn [fst hass_data]. rewrite lookup_insert_eq.
  eexists _, _. unfold coordinator_of_entry. cbn [hass_data].
  rewrite !lookup_insert_eq.
  rewrite (lookup_insert_ne _ (entry_id entry2) (entry_id entry1)) by congruence.
  rewrite !lookup_insert_eq.
  split; [reflexivity |]. split; [reflexivity |]. split; [reflexivity |].
  split; match goal with
         | |- name (request_first_refresh ?t ?c).1 = _ =>
             destruct (stub_first_refresh (api_key c) (lat c) (lon c) (name c) t)
               as (_ & _ & _ & _ & _ & Hn & _); exact Hn
         end.
Qed.

(** *** All or nothing *)

(** [_async_update_data] returns data exactly when both client calls
    return and are done, one after the other, within the ten seconds; the
    data are then the merge of the two results.  Whatever else happens, it
    raises: there is no partial result. *)
Theorem update_data_all_or_nothing `{DataSource C}
    (self : NOAAWeatherDataUpdateCoordinator C) (snap : gmap string value) :
  _async_update_data self = Return snap
  <-> exists current forecast,
        outcome (get_current_conditions (noaaweather self)) = Return current
        /\ outcome (get_daily_forecast (noaaweather self)) = Return forecast
        /\ took (get_current_conditions (noaaweather self)) <= 10 * 1000
        /\ took (get_current_conditions (noaaweather self))
           + took (get_daily_forecast (noaaweather self)) <= 10 * 1000
        /\ snap = <[ATTR_FORECAST := VList forecast]> current.
Proof.
  unfold _async_update_data, fetch, timeout, timed_bind, await, timed_ret.
  set (a := get_current_conditions (noaaweather self)).
  set (b := get_daily_forecast (noaaweather self)).
  split.
  - destruct (Z.ltb_spec (10 * 1000) (0 + took a)) as [Ha | Ha];
      [discriminate |].
    destruct (outcome a) as [current | e] eqn:Hcur;
      [| destruct e; discriminate].
    destruct (Z.ltb_spec (10 * 1000) (0 + took a + took b)) as [Hb | Hb];
      [discriminate |].
    destruct (outcome b) as [forecast | e] eqn:Hfc;
      [| destruct e; discriminate].
    intros [= <-]. exists current, forecast. repeat split; lia.
  - intros (current & forecast & Hcur & Hfc & Ha & Hb & ->).
    destruct (Z.ltb_spec (10 * 1000) (0 + took a)); [lia |].
    rewrite Hcur.
    destruct (Z.ltb_spec (10 * 1000) (0 + took a + took b)); [lia |].
    now rewrite Hfc.
Qed.

(** *** The sensor entities *)

Lemma mapM_Forall2 {A B} (f : A -> result B) (l : list A) (out : list B) :
  mapM f l = Return out <-> Forall2 (fun x y => f x = Return y) l out.
Proof.
  revert out. induction l as [| x rest IH]; intros out; cbn [mapM].
  - split; [intros [= <-]; constructor | intros Hall; now inversion Hall].
  - split.
    + destruct (f x) as [y |] eqn:Hx; [| discriminate]. cbn [bind].
      destruct (mapM f rest) as [ys |] eqn:Hrest; [| discriminate].
      cbn [bind]. intros [= <-]. constructor; [exact Hx | now apply IH].
    + intros Hall. inversion Hall as [| x' y l' ys Hx Hrest]; subst.
      rewrite Hx. cbn [bind]. apply IH in Hrest. now rewrite Hrest.
Qed.

Lemma mapM_raises {A B} (f : A -> result B) (l : list A) (x : A) :
  x ∈ l -> (exists e, f x = Raise e) -> exists e, mapM f l = Raise e.
Proof.
  intros Hin (e & He). induction l as [| y rest IH].
  - now apply elem_of_nil in Hin.
  - cbn [mapM]. apply elem_of_cons in Hin as [<- | Hin].
    + rewrite He. eauto.
    + destruct (f y); cbn [bind]; [| eauto].
      destruct (IH Hin) as (e' & ->). eauto.
Qed.

Section Sensors.
Context {C : Type} (coordinator : NOAAWeatherDataUpdateCoordinator C).

Lemma sensor_init_unfold (description : NOAAWeatherSensorDescription)
    (day : option Z) :
  NOAAWeatherSensor_init coordinator description day
  = let! data := get_sensor_data_of (coordinator_data coordinator)
                   (key description) day in
    Return (sensor_for coordinator description day data).
Proof.
  unfold NOAAWeatherSensor_init, sensor_for, bind.
  destruct (get_sensor_data_of _ _ _); [| reflexivity]. now destruct day.
Qed.

Lemma coordinator_data_some (data : gmap string value) :
  read coordinator = Some data -> coordinator_data coordinator = VDict data.
Proof. intros Hd. unfold coordinator_data. now rewrite Hd. Qed.

Lemma sensor_init_current (data : gmap string value)
    (description : NOAAWeatherSensorDescription) :
  read coordinator = Some data ->
  NOAAWeatherSensor_init coordinator description None
  = Return (sensor_for coordinator description None
              (match data !! key description with Some v => v | None => VNone end)).
Proof.
  intros Hd. rewrite sensor_init_unfold, (coordinator_data_some _ Hd).
  reflexivity.
Qed.

Lemma current_sensors (data : gmap string value)
    (descriptions : list NOAAWeatherSensorDescription) :
  read coordinator = Some data ->
  mapM (fun description => NOAAWeatherSensor_init coordinator description None)
       descriptions
  = Return (map (fun description =>
                   sensor_for coordinator description None
                     (match data !! key description with
                      | Some v => v
                      | None => VNone
                      end)) descriptions).
Proof.
  intros Hd. induction descriptions as [| d rest IH]; [reflexivity |].
  cbn [mapM map]. rewrite (sensor_init_current _ _ Hd), IH. reflexivity.
Qed.

Lemma no_forecast_key (data : gmap string value) (days : value)
    (description : NOAAWeatherSensorDescription) :
  read coordinator = Some data ->
  data !! ATTR_FORECAST = Some days ->
  truthy days = false ->
  has_forecast_key coordinator description = Return false.
Proof.
  intros Hd Hdays Hfalsy. unfold has_forecast_key.
  rewrite (coordinator_data_some _ Hd). cbn. rewrite Hdays. cbn.
  now rewrite Hfalsy.
Qed.

Lemma add_forecast_sensors_none (day : Z)
    (descriptions : list NOAAWeatherSensorDescription)
    (sensors : list NOAAWeatherSensor) :
  (forall description, has_forecast_key coordinator description = Return false) ->
  add_forecast_sensors coordinator day descriptions sensors = Return sensors.
Proof.
  intros Hno. induction descriptions as [| d rest IH]; [reflexivity |].
  cbn [add_forecast_sensors]. rewrite Hno. exact IH.
Qed.

Lemma add_forecast_days_none (days : list Z) (sensors : list NOAAWeatherSensor) :
  (forall description, has_forecast_key coordinator description = Return false) ->
  add_forecast_days coordinator days sensors = Return sensors.
Proof.
  intros Hno. induction days as [| d rest IH]; [reflexivity |].
  cbn [add_forecast_days]. rewrite (add_forecast_sensors_none _ _ _ Hno).
  exact IH.
Qed.

(** With an empty forecast (or any other false one) in the data, the
    sensor platform sets up the eleven sensors of the current conditions
    and no other, whatever [MAX_FORECAST_DAYS] is; a sensor whose key the
    data lack is set up all the same, on [None]. *)
Theorem sensors_for_empty_forecast (data : gmap string value) (days : value) :
  read coordinator = Some data ->
  data !! ATTR_FORECAST = Some days ->
  truthy days = false ->
  sensor_entities coordinator
  = Return (map (fun description =>
                   sensor_for coordinator description None
                     (match data !! key description with
                      | Some v => v
                      | None => VNone
                      end)) SENSOR_TYPES)
  /\ exists sensors, sensor_entities coordinator = Return sensors
                     /\ length sensors = 11%nat
                     /\ Forall (fun s => forecast_day s = None) sensors.
Proof.
  intros Hd Hdays Hfalsy.
  assert (Heq : sensor_entities coordinator
                = Return (map (fun description =>
                     sensor_for coordinator description None
                       (match data !! key description with
                        | Some v => v
                        | None => VNone
                        end)) SENSOR_TYPES)).
  { unfold sensor_entities. rewrite (current_sensors _ _ Hd). cbn [bind].
    destruct (forecast coordinator); [| reflexivity].
    apply add_forecast_days_none. intros description.
    exact (no_forecast_key _ _ description Hd Hdays Hfalsy). }
  split; [exact Heq |]. eexists. split; [exact Heq |].
  split; [reflexivity |].
  apply Forall_forall. intros s Hs. apply list_elem_of_fmap in Hs.
  destruct Hs as (d & -> & _). reflexivity.
Qed.

(** When the coordinator is updated, a sensor becomes what [__init__]
    would make of its description and day on the new data: its data are
    read again, and nothing else changes. *)
Theorem update_is_a_fresh_sensor {C'}
    (coordinator' : NOAAWeatherDataUpdateCoordinator C')
    (description : NOAAWeatherSensorDescription) (day : option Z)
    (sensor : NOAAWeatherSensor) :
  NOAAWeatherSensor_init coordinator description day = Return sensor ->
  location_key coordinator' = location_key coordinator ->
  _handle_coordinator_update coordinator' sensor
  = NOAAWeatherSensor_init coordinator' description day
  /\ (forall sensor',
        _handle_coordinator_update coordinator' sensor = Return sensor' ->
        entity_description sensor' = description
        /\ forecast_day sensor' = day
        /\ _attr_unique_id sensor' = _attr_unique_id sensor
        /\ _attr_name sensor' = _attr_name sensor
        /\ get_sensor_data_of (coordinator_data coordinator') (key description) day
           = Return (_sensor_data sensor')).
Proof.
  intros Hinit Hloc. rewrite sensor_init_unfold in Hinit.
  destruct (get_sensor_data_of (coordinator_data coordinator) (key description) day)
    as [data |] eqn:Hdata; [| discriminate].
  cbn in Hinit. injection Hinit as <-.
  assert (Hfields : entity_description (sensor_for coordinator description day data) = description
                    /\ forecast_day (sensor_for coordinator description day data) = day)
    by (now destruct day).
  destruct Hfields as [Hdesc Hday].
  unfold _handle_coordinator_update. rewrite Hdesc, Hday.
  unfold NOAAWeatherSensor_init.
  destruct (get_sensor_data_of (coordinator_data coordinator') (key description) day)
    as [data' |] eqn:Hdata'; cbn [bind].
  - split.
    + destruct day; cbn; now rewrite Hloc.
    + intros sensor' [= <-]. now repeat split.
  - split; [reflexivity | discriminate].
Qed.

Lemma elem_of_range (n d : Z) : d ∈ range n <-> 0 <= d < n.
Proof.
  unfold range. rewrite list_elem_of_fmap. split.
  - intros (i & -> & Hi). apply elem_of_seq in Hi. lia.
  - intros Hd. exists (Z.to_nat d). split; [lia |]. apply elem_of_seq. lia.
Qed.

Lemma has_forecast_key_first (data : gmap string value) (days : list value)
    (first : gmap string value) (description : NOAAWeatherSensorDescription) :
  read coordinator = Some data ->
  data !! ATTR_FORECAST = Some (VList days) ->
  days !! 0%nat = Some (VDict first) ->
  has_forecast_key coordinator description
  = Return (bool_decide (is_Some (first !! key description))).
Proof.
  intros Hd Hdays Hfirst. unfold has_forecast_key.
  rewrite (coordinator_data_some _ Hd). cbn. rewrite Hdays. cbn.
  destruct days as [| d0 rest]; [discriminate |].
  cbn in Hfirst. injection Hfirst as ->. reflexivity.
Qed.

Lemma get_sensor_data_beyond (data : gmap string value) (days : list value)
    (kind : string) (day : Z) :
  data !! ATTR_FORECAST = Some (VList days) ->
  Z.of_nat (length days) < day + 1 ->
  _get_sensor_data data kind (Some day) = Raise IndexError.
Proof.
  intros Hdays Hshort. unfold _get_sensor_data. cbn. rewrite Hdays. cbn.
  now rewrite (index_of_beyond _ _ Hshort).
Qed.

Lemma get_sensor_data_present (data : gmap string value) (days : list value)
    (entry : gmap string value) (kind : string) (day : Z) (v : value) :
  data !! ATTR_FORECAST = Some (VList days) ->
  0 <= day ->
  days !! Z.to_nat day = Some (VDict entry) ->
  entry !! kind = Some v ->
  _get_sensor_data data kind (Some day) = Return v.
Proof.
  intros Hdays H0 Hentry Hkind. unfold _get_sensor_data. cbn.
  rewrite Hdays. cbn.
  rewrite index_of_in_range;
    [| assumption | apply lookup_lt_Some in Hentry; lia].
  rewrite Hentry. cbn. now rewrite Hkind.
Qed.

Lemma add_forecast_sensors_beyond (data : gmap string value) (days : list value)
    (first : gmap string value) (day : Z)
    (descriptions : list NOAAWeatherSensorDescription) :
  read coordinator = Some data ->
  data !! ATTR_FORECAST = Some (VList days) ->
  days !! 0%nat = Some (VDict first) ->
  Z.of_nat (length days) < day + 1 ->
  (exists description, description ∈ descriptions
                       /\ is_Some (first !! key description)) ->
  forall sensors,
    add_forecast_sensors coordinator day descriptions sensors = Raise IndexError.
Proof.
  intros Hd Hdays Hfirst Hshort.
  induction descriptions as [| d rest IH]; intros (w & Hin & Hw) sensors.
  - now apply elem_of_nil in Hin.
  - cbn [add_forecast_sensors].
    rewrite (has_forecast_key_first _ _ _ d Hd Hdays Hfirst). cbn [bind].
    case_bool_decide as Hwanted.
    + rewrite sensor_init_unfold, (coordinator_data_some _ Hd).
      cbn [get_sensor_data_of].
      now rewrite (get_sensor_data_beyond _ _ _ _ Hdays Hshort).
    + apply IH. exists w. split; [| exact Hw].
      apply elem_of_cons in Hin as [-> | Hin]; [contradiction | exact Hin].
Qed.

Lemma add_forecast_days_raises (bad : Z) (ds : list Z) :
  bad ∈ ds ->
  (forall sensors,
      add_forecast_sensors coordinator bad FORECAST_SENSOR_TYPES sensors
      = Raise IndexError) ->
  forall sensors, exists e, add_forecast_days coordinator ds sensors = Raise e.
Proof.
  intros Hin Hbad. induction ds as [| d rest IH]; intros sensors.
  - now apply elem_of_nil in Hin.
  - cbn [add_forecast_days].
    destruct (add_forecast_sensors coordinator d FORECAST_SENSOR_TYPES sensors)
      as [sensors' | e] eqn:Hd; cbn [bind]; [| eauto].
    apply elem_of_cons in Hin as [-> | Hin].
    + rewrite Hbad in Hd. discriminate.
    + now apply IH.
Qed.

(** When the forecast has fewer than [MAX_FORECAST_DAYS + 1] days, and its
    first day has the key of at least one forecast sensor, the sensor
    platform does not come up: setting it up raises. *)
Theorem sensors_for_short_forecast_raise (data : gmap string value)
    (days : list value) (first : gmap string value)
    (description : NOAAWeatherSensorDescription) :
  read coordinator = Some data ->
  forecast coordinator = true ->
  data !! ATTR_FORECAST = Some (VList days) ->
  days !! 0%nat = Some (VDict first) ->
  description ∈ FORECAST_SENSOR_TYPES ->
  is_Some (first !! key description) ->
  Z.of_nat (length days) <= MAX_FORECAST_DAYS ->
  exists e, sensor_entities coordinator = Raise e.
Proof.
  intros Hd Hflag Hdays Hfirst Hin Hkey Hshort.
  unfold sensor_entities. rewrite (current_sensors _ _ Hd), Hflag. cbn [bind].
  apply (add_forecast_days_raises (Z.of_nat (length days))).
  - apply elem_of_range. lia.
  - apply (add_forecast_sensors_beyond data days first); try assumption; [lia |].
    exists description. now split.
Qed.

Lemma add_forecast_sensors_good (data : gmap string value) (days : list value)
    (first entry : gmap string value) (day : Z)
    (descriptions : list NOAAWeatherSensorDescription) :
  read coordinator = Some data ->
  data !! ATTR_FORECAST = Some (VList days) ->
  days !! 0%nat = Some (VDict first) ->
  0 <= day ->
  days !! Z.to_nat day = Some (VDict entry) ->
  (forall d, d ∈ descriptions -> is_Some (first !! key d) ->
             is_Some (entry !! key d)) ->
  forall sensors, exists added,
    add_forecast_sensors coordinator day descriptions sensors
    = Return (sensors ++ added)%list
    /\ length added
       = length (filter (fun d => is_Some (first !! key d)) descriptions)
    /\ Forall (fun s => forecast_day s = Some day) added.
Proof.
  intros Hd Hdays Hfirst H0 Hentry.
  induction descriptions as [| d rest IH]; intros Hkeys sensors.
  - exists []. cbn. rewrite app_nil_r. now repeat split.
  - cbn [add_forecast_sensors].
    rewrite (has_forecast_key_first _ _ _ d Hd Hdays Hfirst). cbn [bind].
    rewrite filter_cons.
    assert (Hrest : forall d', d' ∈ rest -> is_Some (first !! key d') ->
                               is_Some (entry !! key d'))
      by (intros d' Hd'; apply Hkeys; now apply list_elem_of_further).
    case_bool_decide as Hwanted.
    + destruct (Hkeys d (list_elem_of_here _ _) Hwanted) as [v Hv].
      rewrite sensor_init_unfold, (coordinator_data_some _ Hd).
      cbn [get_sensor_data_of].
      rewrite (get_sensor_data_present _ _ _ _ _ _ Hdays H0 Hentry Hv).
      cbn [bind].
      destruct (IH Hrest (sensors ++ [sensor_for coordinator d (Some day) v])%list)
        as (added & Heq & Hlen & Hall).
      exists (sensor_for coordinator d (Some day) v :: added).
      rewrite Heq, <- app_assoc. cbn [app].
      split; [reflexivity |]. rewrite decide_True by assumption.
      split; [cbn; now rewrite Hlen |]. now constructor.
    + rewrite decide_False by assumption. now apply IH.
Qed.

Lemma add_forecast_days_good (data : gmap string value) (days : list value)
    (first : gmap string value) (ds : list Z) :
  read coordinator = Some data ->
  data !! ATTR_FORECAST = Some (VList days) ->
  days !! 0%nat = Some (VDict first) ->
  (forall day, day ∈ ds ->
     0 <= day
     /\ exists entry, days !! Z.to_nat day = Some (VDict entry)
          /\ forall d, d ∈ FORECAST_SENSOR_TYPES -> is_Some (first !! key d) ->
                       is_Some (entry !! key d)) ->
  forall sensors, exists added,
    add_forecast_days coordinator ds sensors = Return (sensors ++ added)%list
    /\ length added
       = (length ds
          * length (filter (fun d => is_Some (first !! key d))
                      FORECAST_SENSOR_TYPES))%nat
    /\ Forall (fun s => exists day, day ∈ ds /\ forecast_day s = Some day) added.
Proof.
  intros Hd Hdays Hfirst.
  induction ds as [| day rest IH]; intros Hgood sensors.
  - exists []. cbn. rewrite app_nil_r. now repeat split.
  - cbn [add_forecast_days].
    destruct (Hgood day (list_elem_of_here _ _)) as (H0 & entry & Hentry & Hkeys).
    destruct (add_forecast_sensors_good data days first entry day
                FORECAST_SENSOR_TYPES Hd Hdays Hfirst H0 Hentry Hkeys sensors)
      as (today & -> & Hlen & Htoday).
    cbn [bind].
    destruct (IH (fun d Hin => Hgood d (list_elem_of_further _ _ _ Hin))
                (sensors ++ today)%list)
      as (later & -> & Hlen' & Hlater).
    exists (today ++ later)%list. rewrite <- app_assoc.
    split; [reflexivity |]. split.
    + rewrite length_app, Hlen, Hlen'. cbn [length]. lia.
    + apply Forall_app. split.
      * eapply Forall_impl; [exact Htoday |]. intros s Hs.
        exists day. split; [apply list_elem_of_here | exact Hs].
      * eapply Forall_impl; [exact Hlater |]. intros s (d & Hin & Hs).
        exists d. split; [now apply list_elem_of_further | exact Hs].
Qed.

(** When each of the first [MAX_FORECAST_DAYS + 1] days of the forecast is
    a mapping that has every forecast-sensor key the first day has, the
    sensor platform comes up with the eleven sensors of the current
    conditions followed by one sensor for every such key and every day
    from 0 to [MAX_FORECAST_DAYS]. *)
Theorem sensors_for_full_forecast (data : gmap string value)
    (days : list value) (first : gmap string value) :
  read coordinator = Some data ->
  data !! ATTR_FORECAST = Some (VList days) ->
  days !! 0%nat = Some (VDict first) ->
  (forall day, 0 <= day <= MAX_FORECAST_DAYS ->
     exists entry, days !! Z.to_nat day = Some (VDict entry)
       /\ forall d, d ∈ FORECAST_SENSOR_TYPES -> is_Some (first !! key d) ->
                    is_Some (entry !! key d)) ->
  exists current added,
    sensor_entities coordinator = Return (current ++ added)%list
    /\ length current = 11%nat
    /\ Forall (fun s => forecast_day s = None) current
    /\ (forecast coordinator = false -> added = [])
    /\ (forecast coordinator = true ->
        length added
        = (Z.to_nat (MAX_FORECAST_DAYS + 1)
           * length (filter (fun d => is_Some (first !! key d))
                       FORECAST_SENSOR_TYPES))%nat)
    /\ Forall (fun s => exists day, 0 <= day <= MAX_FORECAST_DAYS
                                    /\ forecast_day s = Some day) added.
Proof.
  intros Hd Hdays Hfirst Hgood.
  unfold sensor_entities. rewrite (current_sensors _ _ Hd). cbn [bind].
  eexists. destruct (forecast coordinator).
  - destruct (add_forecast_days_good data days first
                (range (MAX_FORECAST_DAYS + 1)) Hd Hdays Hfirst) with
        (sensors := map (fun description =>
                     sensor_for coordinator description None
                       (match data !! key description with
                        | Some v => v
                        | None => VNone
                        end)) SENSOR_TYPES)
      as (added & Heq & Hlen & Hall).
    { intros day Hin. apply elem_of_range in Hin. split; [lia |].
      apply Hgood. lia. }
    exists added. split; [exact Heq |]. split; [reflexivity |].
    split.
    { apply Forall_forall. intros s Hs. apply list_elem_of_fmap in Hs.
      destruct Hs as (d & -> & _). reflexivity. }
    split; [discriminate |]. split.
    + intros _. rewrite Hlen. unfold range. now rewrite length_map, length_seq.
    + eapply Forall_impl; [exact Hall |]. intros s (day & Hin & Hs).
      exists day. apply elem_of_range in Hin. split; [lia | exact Hs].
  - exists []. rewrite app_nil_r. split; [reflexivity |].
    split; [reflexivity |]. split.
    { apply Forall_forall. intros s Hs. apply list_elem_of_fmap in Hs.
      destruct Hs as (d & -> & _). reflexivity. }
    split; [reflexivity |]. split; [discriminate | constructor].
Qed.

(** A sensor of the current conditions whose key the data lack comes up
    with [None] as its data; reading its value then raises [TypeError],
    but for the cloud cover, whose value is [None]. *)
Theorem sensor_value_for_missing_key (data : gmap string value)
    (description : NOAAWeatherSensorDescription) :
  read coordinator = Some data ->
  description ∈ SENSOR_TYPES ->
  data !! key description = None ->
  exists sensor,
    NOAAWeatherSensor_init coordinator description None = Return sensor
    /\ _sensor_data sensor = VNone
    /\ native_value sensor
       = if String.eqb (key description) "CloudCover" then Return VNone
         else Raise TypeError.
Proof.
  intros Hd Hin Hmissing. rewrite (sensor_init_current _ _ Hd), Hmissing.
  eexists. split; [reflexivity |]. split; [reflexivity |].
  unfold SENSOR_TYPES in Hin.
  repeat (apply elem_of_cons in Hin as [-> | Hin]; [reflexivity |]).
  now apply elem_of_nil in Hin.
Qed.

(** The attributes of a sensor of the current conditions are computed
    from the whole data of the coordinator, not from the sensor's own: for
    the precipitation sensor they are the [PrecipitationType] field of the
    data, and reading them raises [KeyError] when the data have none; every
    other such sensor has no attributes. *)
Theorem current_sensor_attributes {C'}
    (coordinator' : NOAAWeatherDataUpdateCoordinator C')
    (data : gmap string value) (description : NOAAWeatherSensorDescription)
    (sensor : NOAAWeatherSensor) :
  NOAAWeatherSensor_init coordinator description None = Return sensor ->
  description ∈ SENSOR_TYPES ->
  read coordinator' = Some data ->
  extra_state_attributes coordinator' sensor
  = if String.eqb (key description) "Precipitation" then
      match data !! "PrecipitationType" with
      | Some type => Return (dict_of [("type", type)])
      | None => Raise (KeyError (VStr "PrecipitationType"))
      end
    else Return ∅.
Proof.
  intros Hinit Hin Hd. rewrite sensor_init_unfold in Hinit.
  destruct (get_sensor_data_of (coordinator_data coordinator) (key description) None)
    as [own |]; [| discriminate].
  cbn in Hinit. injection Hinit as <-.
  unfold extra_state_attributes. cbn [forecast_day sensor_for entity_description].
  unfold coordinator_data. rewrite Hd.
  unfold SENSOR_TYPES in Hin.
  repeat (apply elem_of_cons in Hin as [-> | Hin];
          [cbn; unfold type_attribute, no_attributes; cbn;
           try reflexivity; now destruct (data !! "PrecipitationType") |]).
  now apply elem_of_nil in Hin.
Qed.

Lemma sensor_init_inv (description : NOAAWeatherSensorDescription)
    (day : option Z) (sensor : NOAAWeatherSensor) :
  NOAAWeatherSensor_init coordinator description day = Return sensor ->
  entity_description sensor = description
  /\ forecast_day sensor = day
  /\ tag_of sensor = (key description, day)
  /\ _attr_unique_id sensor
     = unique_id_for (location_key coordinator) (key description) day
  /\ get_sensor_data_of (coordinator_data coordinator) (key description) day
     = Return (_sensor_data sensor).
Proof.
  rewrite sensor_init_unfold.
  destruct (get_sensor_data_of _ _ _) as [data |]; [| discriminate].
  cbn [bind]. intros [= <-]. now destruct day.
Qed.

Lemma add_forecast_sensors_inv (day : Z)
    (descriptions : list NOAAWeatherSensorDescription) :
  forall sensors out,
    add_forecast_sensors coordinator day descriptions sensors = Return out ->
    exists added,
      out = (sensors ++ added)%list
      /\ sublist (tag_of <$> added)
                 ((fun k => (k, Some day)) <$> (key <$> descriptions))
      /\ Forall (fun s => exists d,
                   d ∈ descriptions
                   /\ NOAAWeatherSensor_init coordinator d (Some day) = Return s)
                added.
Proof.
  induction descriptions as [| d rest IH]; intros sensors out.
  - cbn. intros [= <-]. exists []. rewrite app_nil_r.
    split; [reflexivity |]. split; constructor.
  - cbn [add_forecast_sensors].
    destruct (has_forecast_key coordinator d) as [[|] |]; cbn [bind];
      [| | discriminate].
    + destruct (NOAAWeatherSensor_init coordinator d (Some day))
        as [s |] eqn:Hs; cbn [bind]; [| discriminate].
      intros Hout. destruct (IH _ _ Hout) as (added & -> & Hsub & Hall).
      exists (s :: added). rewrite <- app_assoc. split; [reflexivity |].
      destruct (sensor_init_inv _ _ _ Hs) as (_ & _ & Htag & _).
      split.
      * cbn [fmap list_fmap]. rewrite Htag. now constructor.
      * constructor.
        -- exists d. split; [apply list_elem_of_here | exact Hs].
        -- eapply Forall_impl; [exact Hall |]. intros s' (d' & Hin & Hs').
           exists d'. split; [now apply list_elem_of_further | exact Hs'].
    + intros Hout. destruct (IH _ _ Hout) as (added & -> & Hsub & Hall).
      exists added. split; [reflexivity |]. split.
      * cbn [fmap list_fmap]. now constructor.
      * eapply Forall_impl; [exact Hall |]. intros s' (d' & Hin & Hs').
        exists d'. split; [now apply list_elem_of_further | exact Hs'].
Qed.

Lemma add_forecast_days_inv (ds : list Z) :
  forall sensors out,
    add_forecast_days coordinator ds sensors = Return out ->
    exists added,
      out = (sensors ++ added)%list
      /\ sublist (tag_of <$> added)
           (ds ≫= fun day => (fun k => (k, Some day))
                               <$> (key <$> FORECAST_SENSOR_TYPES))
      /\ Forall (fun s => exists d day,
                   d ∈ FORECAST_SENSOR_TYPES /\ day ∈ ds
                   /\ NOAAWeatherSensor_init coordinator d (Some day) = Return s)
                added.
Proof.
  induction ds as [| day rest IH]; intros sensors out.
  - cbn. intros [= <-]. exists []. rewrite app_nil_r.
    split; [reflexivity |]. split; constructor.
  - cbn [add_forecast_days].
    destruct (add_forecast_sensors coordinator day FORECAST_SENSOR_TYPES sensors)
      as [today |] eqn:Htoday; cbn [bind]; [| discriminate].
    intros Hout.
    destruct (add_forecast_sensors_inv _ _ _ _ Htoday) as (a1 & -> & Hsub1 & Hall1).
    destruct (IH _ _ Hout) as (a2 & -> & Hsub2 & Hall2).
    exists (a1 ++ a2)%list. rewrite <- app_assoc. split; [reflexivity |].
    split.
    + rewrite fmap_app. cbn [mbind list_bind]. now apply sublist_app.
    + apply Forall_app. split.
      * eapply Forall_impl; [exact Hall1 |]. intros s (d & Hin & Hs).
        exists d, day. split; [exact Hin |].
        split; [apply list_elem_of_here | exact Hs].
      * eapply Forall_impl; [exact Hall2 |]. intros s (d & day' & Hin & Hday & Hs).
        exists d, day'. split; [exact Hin |].
        split; [now apply list_elem_of_further | exact Hs].
Qed.

(** Every sensor the platform sets up stems from one of the two tables:
    it is what [__init__] makes of a description of [SENSOR_TYPES] without
    a day, or of a description of [FORECAST_SENSOR_TYPES] and a day from 0
    to [MAX_FORECAST_DAYS]; so it holds the data [_get_sensor_data] finds
    for its key and day, and never a day out of that range. *)
Theorem sensors_stem_from_the_tables (sensors : list NOAAWeatherSensor) :
  sensor_entities coordinator = Return sensors ->
  Forall (fun s =>
            NOAAWeatherSensor_init coordinator (entity_description s)
              (forecast_day s) = Return s
            /\ get_sensor_data_of (coordinator_data coordinator)
                 (key (entity_description s)) (forecast_day s)
               = Return (_sensor_data s)
            /\ (forecast_day s = None /\ entity_description s ∈ SENSOR_TYPES
                \/ exists day, forecast_day s = Some day
                               /\ 0 <= day <= MAX_FORECAST_DAYS
                               /\ entity_description s ∈ FORECAST_SENSOR_TYPES))
         sensors.
Proof.
  unfold sensor_entities.
  destruct (mapM _ SENSOR_TYPES) as [current |] eqn:Hcur; cbn [bind];
    [| discriminate].
  apply mapM_Forall2 in Hcur.
  assert (Hcurrent : Forall (fun s =>
            NOAAWeatherSensor_init coordinator (entity_description s)
              (forecast_day s) = Return s
            /\ get_sensor_data_of (coordinator_data coordinator)
                 (key (entity_description s)) (forecast_day s)
               = Return (_sensor_data s)
            /\ (forecast_day s = None /\ entity_description s ∈ SENSOR_TYPES
                \/ exists day, forecast_day s = Some day
                               /\ 0 <= day <= MAX_FORECAST_DAYS
                               /\ entity_description s ∈ FORECAST_SENSOR_TYPES))
         current).
  { apply Forall_forall. intros s Hs.
    apply list_elem_of_lookup in Hs as (i & Hi).
    destruct (Forall2_lookup_r _ _ _ _ _ Hcur Hi) as (d & Hd & Hinit).
    destruct (sensor_init_inv _ _ _ Hinit) as (-> & -> & _ & _ & Hget).
    split; [exact Hinit |]. split; [exact Hget |]. left.
    split; [reflexivity |]. apply list_elem_of_lookup. eauto. }
  destruct (forecast coordinator).
  - intros Hout. destruct (add_forecast_days_inv _ _ _ Hout) as (added & -> & _ & Hall).
    apply Forall_app. split; [exact Hcurrent |].
    eapply Forall_impl; [exact Hall |]. intros s (d & day & Hin & Hday & Hinit).
    destruct (sensor_init_inv _ _ _ Hinit) as (-> & -> & _ & _ & Hget).
    split; [exact Hinit |]. split; [exact Hget |]. right.
    exists day. apply elem_of_range in Hday.
    split; [reflexivity |]. split; [lia | exact Hin].
  - now intros [= <-].
Qed.

Lemma string_app_cons (c : ascii) (a b : string) :
  String c a ++ b = String c (a ++ b).
Proof. reflexivity. Qed.

Lemma string_app_nil_r (a : string) : a ++ "" = a.
Proof.
  induction a as [| c a IH]; [reflexivity |].
  now rewrite string_app_cons, IH.
Qed.

Lemma string_app_assoc (a b c : string) : (a ++ b) ++ c = a ++ (b ++ c).
Proof.
  induction a as [| x a IH]; [reflexivity |].
  now rewrite !string_app_cons, IH.
Qed.

Lemma string_app_inv_head (a x y : string) : a ++ x = a ++ y -> x = y.
Proof.
  induction a as [| c a IH]; [trivial |].
  rewrite !string_app_cons. intros [= Heq]. now apply IH.
Qed.

Lemma str_lower_app (a b : string) :
  str_lower (a ++ b) = str_lower a ++ str_lower b.
Proof.
  induction a as [| c a IH]; [reflexivity |].
  rewrite string_app_cons. cbn [str_lower].
  now rewrite string_app_cons, IH.
Qed.

Lemma hyphen_split (a x : string) :
  after_hyphen a = None ->
  before_hyphen (a ++ String "-" x) = a
  /\ after_hyphen (a ++ String "-" x) = Some x
  /\ before_hyphen a = a.
Proof.
  induction a as [| c a IH]; [now intros _ |].
  rewrite string_app_cons. cbn [before_hyphen after_hyphen].
  destruct (Ascii.eqb c "-"); [discriminate |].
  intros Ha. destruct (IH Ha) as (-> & -> & ->). now repeat split.
Qed.

Lemma lower_pretty_N_go (x : N) :
  forall s, str_lower s = s -> str_lower (pretty_N_go x s) = pretty_N_go x s.
Proof.
  induction (N.lt_wf_0 x) as [x _ IH]. intros s Hs.
  assert (x = 0 \/ 0 < x)%N as [-> | Hpos] by lia.
  - now rewrite pretty_N_go_0.
  - rewrite pretty_N_go_step by assumption. apply IH.
    + now apply N.div_lt.
    + cbn [str_lower]. rewrite Hs. f_equal.
      unfold pretty_N_char. now repeat case_match.
Qed.

Lemma str_lower_pretty (d : Z) : str_lower (pretty d) = pretty d.
Proof.
  destruct d as [| p | p]; [reflexivity | |];
    unfold pretty, pretty_Z, pretty, pretty_positive, pretty, pretty_N.
  - case_decide; [reflexivity | now apply lower_pretty_N_go].
  - rewrite string_app_cons. cbn [str_lower]. f_equal.
    change ("" ++ ?s) with s.
    case_decide; [reflexivity | now apply lower_pretty_N_go].
Qed.

Lemma unique_id_for_split (location k : string) (o : option Z) :
  unique_id_for location k o
  = (str_lower location ++ "-")
    ++ (str_lower k ++ match o with
                       | Some d => String "-" (pretty d)
                       | None => ""
                       end).
Proof.
  unfold unique_id_for. destruct o as [d |].
  - rewrite !str_lower_app, str_lower_pretty. now rewrite string_app_assoc.
  - rewrite !str_lower_app, string_app_nil_r. now rewrite string_app_assoc.
Qed.

Lemma keys_have_no_hyphen :
  Forall (fun k => after_hyphen (str_lower k) = None) all_keys.
Proof. repeat constructor. Qed.

Lemma keys_differ_in_lower_case (k1 k2 : string) :
  k1 ∈ all_keys -> k2 ∈ all_keys -> str_lower k1 = str_lower k2 -> k1 = k2.
Proof.
  intros H1 H2.
  unfold all_keys, SENSOR_TYPES, FORECAST_SENSOR_TYPES in H1, H2.
  cbn [map app key] in H1, H2.
  repeat (apply elem_of_cons in H1 as [-> | H1]);
    try (now apply elem_of_nil in H1);
    repeat (apply elem_of_cons in H2 as [-> | H2]);
    try (now apply elem_of_nil in H2);
    first [reflexivity | vm_compute; discriminate].
Qed.

Lemma unique_id_for_inj (location k1 k2 : string) (o1 o2 : option Z) :
  k1 ∈ all_keys -> k2 ∈ all_keys ->
  unique_id_for location k1 o1 = unique_id_for location k2 o2 ->
  k1 = k2 /\ o1 = o2.
Proof.
  intros H1 H2 Hid.
  pose proof (proj1 (Forall_forall _ _) keys_have_no_hyphen) as Hno.
  pose proof (Hno _ H1) as Hno1. pose proof (Hno _ H2) as Hno2.
  pose proof (keys_differ_in_lower_case _ _ H1 H2) as Hinj.
  rewrite !unique_id_for_split in Hid. apply string_app_inv_head in Hid.
  destruct o1 as [d1 |], o2 as [d2 |].
  - destruct (hyphen_split _ (pretty d1) Hno1) as (Hb1 & Ha1 & _).
    destruct (hyphen_split _ (pretty d2) Hno2) as (Hb2 & Ha2 & _).
    rewrite Hid in Hb1, Ha1. split.
    + apply Hinj. congruence.
    + assert (pretty d1 = pretty d2) as Hd by congruence.
      f_equal. exact (inj pretty _ _ Hd).
  - destruct (hyphen_split _ (pretty d1) Hno1) as (_ & Ha1 & _).
    rewrite Hid, string_app_nil_r in Ha1. congruence.
  - destruct (hyphen_split _ (pretty d2) Hno2) as (_ & Ha2 & _).
    rewrite <- Hid, string_app_nil_r in Ha2. congruence.
  - rewrite !string_app_nil_r in Hid. split; [now apply Hinj | reflexivity].
Qed.

Lemma current_tags (descriptions : list NOAAWeatherSensorDescription)
    (current : list NOAAWeatherSensor) :
  Forall2 (fun d s => NOAAWeatherSensor_init coordinator d None = Return s)
          descriptions current ->
  tag_of <$> current = (fun k => (k, None)) <$> (key <$> descriptions)
  /\ Forall (fun s => _attr_unique_id s
                      = unique_id_for (location_key coordinator)
                          (tag_of s).1 (tag_of s).2) current.
Proof.
  induction 1 as [| d s ds ss Hs _ [IHtags IHids]]; [now split |].
  destruct (sensor_init_inv _ _ _ Hs) as (_ & _ & Htag & Hid & _).
  split.
  - cbn [fmap list_fmap]. rewrite Htag. f_equal. exact IHtags.
  - constructor; [now rewrite Htag | exact IHids].
Qed.

Lemma sensor_entities_tags (sensors : list NOAAWeatherSensor) :
  sensor_entities coordinator = Return sensors ->
  sublist (tag_of <$> sensors)
    (((fun k => (k, None)) <$> (key <$> SENSOR_TYPES))
     ++ (range (MAX_FORECAST_DAYS + 1)
           ≫= fun day => (fun k => (k, Some day))
                           <$> (key <$> FORECAST_SENSOR_TYPES)))%list
  /\ Forall (fun s => _attr_unique_id s
                      = unique_id_for (location_key coordinator)
                          (tag_of s).1 (tag_of s).2) sensors.
Proof.
  unfold sensor_entities.
  destruct (mapM _ SENSOR_TYPES) as [current |] eqn:Hcur; cbn [bind];
    [| discriminate].
  apply mapM_Forall2 in Hcur. destruct (current_tags _ _ Hcur) as [Htags Hids].
  destruct (forecast coordinator).
  - intros Hout.
    destruct (add_forecast_days_inv _ _ _ Hout) as (added & -> & Hsub & Hall).
    split.
    + rewrite fmap_app, Htags. now apply sublist_app.
    + apply Forall_app. split; [exact Hids |].
      eapply Forall_impl; [exact Hall |]. intros s (d & day & _ & _ & Hs).
      destruct (sensor_init_inv _ _ _ Hs) as (_ & _ & Htag & Hid & _).
      now rewrite Htag.
  - intros [= <-]. split; [| exact Hids].
    rewrite Htags. now apply sublist_inserts_r.
Qed.

Lemma table_keys_differ :
  NoDup (key <$> SENSOR_TYPES) /\ NoDup (key <$> FORECAST_SENSOR_TYPES).
Proof.
  split; compute_done.
Qed.

(** The unique ids of the sensors the platform sets up are all different,
    whatever the data, the location key of the coordinator and
    [MAX_FORECAST_DAYS] are. *)
Theorem sensor_unique_ids_differ (sensors : list NOAAWeatherSensor) :
  sensor_entities coordinator = Return sensors ->
  NoDup (_attr_unique_id <$> sensors).
Proof.
  intros Hout. destruct (sensor_entities_tags _ Hout) as [Hsub Hids].
  destruct table_keys_differ as [Hcurrent Hforecast].
  assert (Heq : _attr_unique_id <$> sensors
                = (fun t => unique_id_for (location_key coordinator) t.1 t.2)
                    <$> (tag_of <$> sensors)).
  { rewrite <- list_fmap_compose. apply Forall_fmap_ext. exact Hids. }
  rewrite Heq.
  eapply sublist_NoDup; [| apply fmap_sublist; exact Hsub].
  apply NoDup_fmap_2_strong.
  - intros [k1 o1] [k2 o2] Hin1 Hin2 Hid. cbn [fst snd] in Hid.
    assert (Hkeys : forall k o, (k, o) ∈
              (((fun k => (k, None)) <$> (key <$> SENSOR_TYPES))
               ++ (range (MAX_FORECAST_DAYS + 1)
                     ≫= fun day => (fun k => (k, Some day))
                                     <$> (key <$> FORECAST_SENSOR_TYPES)))%list ->
              k ∈ all_keys).
    { intros k o Hin. unfold all_keys. apply elem_of_app.
      apply elem_of_app in Hin as [Hin | Hin].
      - left. apply list_elem_of_fmap in Hin as (k' & [= -> _] & Hk). exact Hk.
      - right. apply list_elem_of_bind in Hin as (day & Hin & _).
        apply list_elem_of_fmap in Hin as (k' & [= -> _] & Hk). exact Hk. }
    destruct (unique_id_for_inj _ _ _ _ _ (Hkeys _ _ Hin1) (Hkeys _ _ Hin2) Hid)
      as [-> ->].
    reflexivity.
  - apply NoDup_app. split; [| split].
    + apply NoDup_fmap_2_strong; [| exact Hcurrent].
      intros x y _ _ [= ->]. reflexivity.
    + intros t Hin Hin'. apply list_elem_of_fmap in Hin as (k & -> & _).
      apply list_elem_of_bind in Hin' as (day & Hin' & _).
      apply list_elem_of_fmap in Hin' as (k' & [= _] & _).
    + apply NoDup_bind.
      * intros d1 d2 t _ _ Hin1 Hin2.
        apply list_elem_of_fmap in Hin1 as (k1 & -> & _).
        apply list_elem_of_fmap in Hin2 as (k2 & [= _ ->] & _). reflexivity.
      * intros day _. apply NoDup_fmap_2_strong; [| exact Hforecast].
        intros x y _ _ [= ->]. reflexivity.
      * unfold range. apply NoDup_fmap_2_strong; [| apply NoDup_seq].
        intros x y _ _ Hxy. lia.
Qed.

End Sensors.

(** *** The weather entity *)

Lemma conditions_of_known (x : value) (classes : list (string * list Z)) :
  conditions_of (Return x) classes
  = Return (map fst (List.filter (fun kv => in_ints x kv.2) classes)).
Proof.
  induction classes as [| [k v] rest IH]; [reflexivity |].
  cbn [conditions_of bind List.filter]. rewrite IH. cbn [bind snd].
  now destruct (in_ints x v).
Qed.

Lemma conditions_of_unknown (e : exn) (classes : list (string * list Z)) :
  classes <> [] -> conditions_of (Raise e) classes = Raise e.
Proof. destruct classes as [| [k v] rest]; [congruence | reflexivity]. Qed.

Lemma first_of_filter (p : string * list Z -> bool)
    (classes : list (string * list Z)) :
  first_of (map fst (List.filter p classes))
  = match List.find p classes with
    | Some kv => Return (VStr kv.1)
    | None => Raise IndexError
    end.
Proof.
  induction classes as [| kv rest IH]; [reflexivity |].
  cbn [List.filter List.find]. now destruct (p kv).
Qed.

Section Weather.
Context {C : Type} (coordinator : NOAAWeatherDataUpdateCoordinator C).
Context (data : gmap string value) (Hdata : read coordinator = Some data).

Lemma weather_data : coordinator_data coordinator = VDict data.
Proof. unfold coordinator_data. now rewrite Hdata. Qed.

(** The condition of the weather entity is the first condition of
    [CONDITION_CLASSES], in the order of the table, that lists the
    [WeatherIcon] of the data, and [None] when no condition lists it; when
    the data have no [WeatherIcon], reading the condition raises
    [KeyError], the table being empty apart. *)
Theorem condition_is_first_match :
  (forall icon, data !! "WeatherIcon" = Some icon ->
     condition coordinator
     = Return match List.find (fun kv => in_ints icon kv.2) CONDITION_CLASSES with
              | Some kv => VStr kv.1
              | None => VNone
              end)
  /\ (data !! "WeatherIcon" = None ->
      condition coordinator
      = match CONDITION_CLASSES with
        | [] => Return VNone
        | _ => Raise (KeyError (VStr "WeatherIcon"))
        end).
Proof.
  unfold condition. rewrite weather_data. cbn [getitem]. split.
  - intros icon ->. rewrite conditions_of_known. cbn [bind].
    rewrite first_of_filter. now destruct (List.find _ _).
  - intros ->. destruct CONDITION_CLASSES as [| [k v] rest]; reflexivity.
Qed.

(** The forecast of the weather entity has one entry for every day of the
    forecast in the data, in the same order, each built from its day
    alone; it is there exactly when every day can be converted. *)
Theorem forecast_keeps_days (days : list value) (out : value) :
  forecast coordinator = true ->
  data !! ATTR_FORECAST = Some (VList days) ->
  entity_forecast coordinator = Return out
  <-> exists entries,
        out = VList entries
        /\ Forall2 (fun item entry => forecast_entry item = Return entry)
                   days entries.
Proof.
  intros Hflag Hdays. unfold entity_forecast.
  rewrite Hflag, weather_data. cbn [negb getitem]. rewrite Hdays.
  cbn [bind items_of].
  split.
  - destruct (mapM forecast_entry days) as [entries |] eqn:Hm; [| discriminate].
    cbn [bind]. intros [= <-]. exists entries. split; [reflexivity |].
    now apply mapM_Forall2.
  - intros (entries & -> & Hall). apply mapM_Forall2 in Hall.
    now rewrite Hall.
Qed.

Lemma forecast_entry_unknown_icon (item icon : value) :
  getitem item (VStr "IconDay") = Return icon ->
  List.find (fun kv => in_ints icon kv.2) CONDITION_CLASSES = None ->
  exists e, forecast_entry item = Raise e.
Proof.
  intros Hicon Hnone. unfold forecast_entry.
  repeat match goal with
         | |- exists e, bind ?m _ = Raise e =>
             lazymatch m with
             | conditions_of _ _ => fail
             | _ => destruct m; cbn [bind]; [| eauto]
             end
         end.
  rewrite Hicon, conditions_of_known. cbn [bind].
  rewrite first_of_filter, Hnone. cbn [bind]. eauto.
Qed.

(** A single day whose [IconDay] no condition lists spoils the whole
    forecast: reading it raises, whereas the condition of the entity, for
    the same icon, is [None]. *)
Theorem forecast_needs_known_icons (days : list value) (item icon : value) :
  forecast coordinator = true ->
  data !! ATTR_FORECAST = Some (VList days) ->
  item ∈ days ->
  getitem item (VStr "IconDay") = Return icon ->
  List.find (fun kv => in_ints icon kv.2) CONDITION_CLASSES = None ->
  (exists e, entity_forecast coordinator = Raise e)
  /\ (data !! "WeatherIcon" = Some icon -> condition coordinator = Return VNone).
Proof.
  intros Hflag Hdays Hin Hicon Hnone. split.
  - unfold entity_forecast. rewrite Hflag, weather_data. cbn [negb getitem].
    rewrite Hdays. cbn [bind items_of].
    destruct (mapM_raises forecast_entry days item Hin
                (forecast_entry_unknown_icon _ _ Hicon Hnone)) as (e & ->).
    eauto.
  - intros Hw. unfold condition. rewrite weather_data. cbn [getitem].
    rewrite Hw, conditions_of_known. cbn [bind].
    now rewrite first_of_filter, Hnone.
Qed.

(** The pressure is read with [get], yet it is only there when the data
    have a [Pressure] mapping: then it is the value of that mapping, or
    [None]; without the field, reading the pressure raises
    [AttributeError]. *)
Theorem pressure_needs_its_field (v : value) :
  (native_pressure coordinator = Return v
   <-> exists pressure,
         data !! "Pressure" = Some (VDict pressure)
         /\ v = match pressure !! ATTR_VALUE with Some x => x | None => VNone end)
  /\ (data !! "Pressure" = None ->
      native_pressure coordinator = Raise (OtherException "AttributeError")).
Proof.
  unfold native_pressure. rewrite weather_data. cbn. split.
  - split.
    + destruct (data !! "Pressure") as [[| | | | | |pressure] |];
        cbn; try discriminate.
      intros [= <-]. eauto.
    + intros (pressure & -> & ->). reflexivity.
  - now intros ->.
Qed.

End Weather.

(** *** The integration as it is wired, with the stub client *)

Lemma stub_days :
  stub_snapshot !! ATTR_FORECAST
  = Some (VList [noaaweather.forecast_day0; noaaweather.forecast_day1]).
Proof. unfold stub_snapshot. apply lookup_insert_eq. Qed.

Lemma stub_day_keys (d : NOAAWeatherSensorDescription) (first second : gmap string value) :
  noaaweather.forecast_day0 = VDict first ->
  noaaweather.forecast_day1 = VDict second ->
  d ∈ FORECAST_SENSOR_TYPES ->
  is_Some (first !! key d) -> is_Some (second !! key d).
Proof.
  intros [= <-] [= <-] Hin. unfold FORECAST_SENSOR_TYPES in Hin.
  repeat (apply elem_of_cons in Hin as [-> | Hin];
          [first [ intros _; eexists; vm_compute; reflexivity
                 | intros [v Hv]; vm_compute in Hv; discriminate ] |]).
  now apply elem_of_nil in Hin.
Qed.

Lemma stub_day_has_cloud_cover (first : gmap string value) :
  noaaweather.forecast_day0 = VDict first ->
  is_Some (first !! "CloudCoverDay").
Proof. intros [= <-]. exists (VInt 40). vm_compute. reflexivity. Qed.

Lemma add_forecast_days_index_error {C}
    (coordinator : NOAAWeatherDataUpdateCoordinator C) (bad : Z) (ds : list Z) :
  (forall day, day ∈ ds -> forall sensors,
      (exists out, add_forecast_sensors coordinator day FORECAST_SENSOR_TYPES sensors
                   = Return out)
      \/ add_forecast_sensors coordinator day FORECAST_SENSOR_TYPES sensors
         = Raise IndexError) ->
  bad ∈ ds ->
  (forall sensors,
      add_forecast_sensors coordinator bad FORECAST_SENSOR_TYPES sensors
      = Raise IndexError) ->
  forall sensors, add_forecast_days coordinator ds sensors = Raise IndexError.
Proof.
  intros Hall Hin Hbad. induction ds as [| d rest IH]; intros sensors.
  - now apply elem_of_nil in Hin.
  - cbn [add_forecast_days].
    pose proof (Hall d (list_elem_of_here _ _) sensors) as Hd.
    destruct (add_forecast_sensors coordinator d FORECAST_SENSOR_TYPES sensors)
      as [out | e] eqn:Hout; cbn [bind].
    + apply elem_of_cons in Hin as [-> | Hin].
      * rewrite Hbad in Hout. discriminate.
      * apply IH; [| exact Hin].
        intros day Hday. apply Hall. now apply list_elem_of_further.
    + destruct Hd as [(out & Hd) | Hd]; [discriminate | exact Hd].
Qed.

(** With the stub client, whose forecast has two days, the sensor platform
    comes up only if [MAX_FORECAST_DAYS] is below 2: it then sets up the
    eleven sensors of the current conditions and five forecast sensors for
    every day from 0 to [MAX_FORECAST_DAYS]; from 2 on, setting it up
    raises [IndexError]. *)
Theorem stub_sensor_platform
    (k : option string) (la lo : float) (n : string) (now : Z) :
  let coordinator := (request_first_refresh now (__init__ k la lo n)).1 in
  (MAX_FORECAST_DAYS < 2 ->
   exists sensors,
     sensor_entities coordinator = Return sensors
     /\ length sensors = (11 + Z.to_nat (MAX_FORECAST_DAYS + 1) * 5)%nat)
  /\ (2 <= MAX_FORECAST_DAYS -> sensor_entities coordinator = Raise IndexError).
Proof.
  intros coordinator.
  destruct (stub_first_refresh k la lo n now)
    as (_ & Hread & _ & _ & _ & _ & _ & Hflag).
  fold coordinator in Hread, Hflag.
  pose proof stub_days as Hdays.
  assert (Hfirst : exists first, noaaweather.forecast_day0 = VDict first)
    by (eexists; reflexivity).
  assert (Hsecond : exists second, noaaweather.forecast_day1 = VDict second)
    by (eexists; reflexivity).
  destruct Hfirst as (first & Hfirst). destruct Hsecond as (second & Hsecond).
  assert (H0 : [noaaweather.forecast_day0; noaaweather.forecast_day1] !! 0%nat
               = Some (VDict first)) by (now rewrite <- Hfirst).
  assert (Hcount : length (filter (fun d => is_Some (first !! key d))
                             FORECAST_SENSOR_TYPES) = 5%nat).
  { injection Hfirst as <-. vm_compute. reflexivity. }
  assert (Hgood : forall day, 0 <= day < 2 ->
            exists entry,
              [noaaweather.forecast_day0; noaaweather.forecast_day1] !! Z.to_nat day
              = Some (VDict entry)
              /\ forall d, d ∈ FORECAST_SENSOR_TYPES ->
                           is_Some (first !! key d) -> is_Some (entry !! key d)).
  { intros day Hday. assert (day = 0 \/ day = 1) as [-> | ->] by lia.
    - exists first. split; [exact H0 | trivial].
    - exists second. split; [cbn; now rewrite <- Hsecond |].
      intros d. now apply stub_day_keys. }
  split.
  - intros Hsmall. unfold sensor_entities.
    rewrite (current_sensors _ _ _ Hread), Hflag. cbn [bind].
    destruct (add_forecast_days_good coordinator stub_snapshot _ first
                (range (MAX_FORECAST_DAYS + 1)) Hread Hdays H0) with
        (sensors := map (fun description =>
                     sensor_for coordinator description None
                       (match stub_snapshot !! key description with
                        | Some v => v
                        | None => VNone
                        end)) SENSOR_TYPES)
      as (added & -> & Hlen & _).
    { intros day Hin. apply elem_of_range in Hin. split; [lia |].
      apply Hgood. lia. }
    eexists. split; [reflexivity |].
    rewrite length_app, Hlen, Hcount. unfold range.
    rewrite !length_map, length_seq. reflexivity.
  - intros Hlarge. unfold sensor_entities.
    rewrite (current_sensors _ _ _ Hread), Hflag. cbn [bind].
    assert (Hbeyond : forall day, 2 <= day -> forall sensors,
              add_forecast_sensors coordinator day FORECAST_SENSOR_TYPES sensors
              = Raise IndexError).
    { intros day Hday.
      apply (add_forecast_sensors_beyond coordinator stub_snapshot
               [noaaweather.forecast_day0; noaaweather.forecast_day1] first);
        try assumption; [cbn; lia |].
      exists (Description "CloudCoverDay" "Cloud cover day" as_is no_attributes).
      split; [unfold FORECAST_SENSOR_TYPES; set_solver |].
      now apply stub_day_has_cloud_cover. }
    apply (add_forecast_days_index_error coordinator 2).
    + intros day Hin sensors. apply elem_of_range in Hin.
      destruct (Z.lt_ge_cases day 2) as [Hlt | Hge].
      * left. destruct (Hgood day ltac:(lia)) as (entry & Hentry & Hkeys).
        destruct (add_forecast_sensors_good coordinator stub_snapshot _ first entry
                    day FORECAST_SENSOR_TYPES Hread Hdays H0 ltac:(lia)
                    Hentry Hkeys sensors) as (added & -> & _).
        eauto.
      * right. now apply Hbeyond.
    + apply elem_of_range. lia.
    + now apply Hbeyond.
Qed.

End Integration.

(** ** Instances

    The statements above at concrete clients and snapshots, with
    [ATTR_FORECAST] read as ["forecast"]. *)

(** C1, as stated, fails: a field the client puts under the reserved key
    is not in the snapshot read after the refresh, the forecast list has
    taken its place. *)
Lemma client_field_under_forecast_key_is_replaced :
  let self := coordinator_with colliding_client in
  exists current snap : gmap string value,
    outcome (get_current_conditions (noaaweather self)) = Return current
    /\ current !! "forecast" = Some (VStr "sunny")
    /\ _async_update_data "forecast" self = Return snap
    /\ read (refresh "forecast" 0 self).1 = Some snap
    /\ snap !! "forecast" = Some (VList [])
    /\ snap !! "forecast" <> current !! "forecast".
Proof.
  intros self. eexists _, _.
  split; [reflexivity |]. split; [vm_compute; reflexivity |].
  split; [reflexivity |]. split; [reflexivity |].
  split; [vm_compute; reflexivity |]. vm_compute. discriminate.
Qed.

Lemma successful_refresh_snapshot_is_union_witness :
  let self := __init__ None 40.7 (-74.0) "Home" in
  let current := noaaweather.async_get_current_conditions (noaaweather self) in
  let forecast := noaaweather.async_get_daily_forecast (noaaweather self) in
  outcome (get_current_conditions (noaaweather self)) = Return current
  /\ outcome (get_daily_forecast (noaaweather self)) = Return forecast
  /\ took (get_current_conditions (noaaweather self)) <= 10 * 1000
  /\ took (get_current_conditions (noaaweather self))
     + took (get_daily_forecast (noaaweather self)) <= 10 * 1000
  /\ exists snap : gmap string value,
       read (refresh "forecast" 0 self).1 = Some snap
       /\ snap !! "forecast"
          = Some (VList [noaaweather.forecast_day0; noaaweather.forecast_day1])
       /\ forall k, k <> "forecast" -> snap !! k = current !! k.
Proof.
  intros self current forecast.
  assert (Hcur : outcome (get_current_conditions (noaaweather self))
                 = Return current) by reflexivity.
  assert (Hfc : outcome (get_daily_forecast (noaaweather self))
                = Return forecast) by reflexivity.
  assert (Ha : took (get_current_conditions (noaaweather self)) <= 10 * 1000)
    by (cbn; lia).
  assert (Hb : took (get_current_conditions (noaaweather self))
               + took (get_daily_forecast (noaaweather self)) <= 10 * 1000)
    by (cbn; lia).
  split; [exact Hcur |]. split; [exact Hfc |]. split; [exact Ha |].
  split; [exact Hb |].
  destruct (successful_refresh_snapshot_is_union "forecast" self 0 _ _
              Hcur Hfc Ha Hb)
    as (snap & _ & Hread & _ & _ & Hforecast & Hother & _).
  exists snap. split; [exact Hread |]. split; [exact Hforecast | exact Hother].
Defined.

(** C2, as stated, fails: the [Temperature] field of the snapshot read
    after the first refresh with the stub client is not the number 25.5. *)
Lemma stub_temperature_field_is_not_a_number :
  exists snap : gmap string value,
    read (request_first_refresh "forecast" 0 (__init__ None 40.7 (-74.0) "Home")).1
      = Some snap
    /\ snap !! "Temperature" <> Some (VFloat 25.5).
Proof.
  eexists. split; [reflexivity |]. vm_compute. discriminate.
Qed.

Lemma first_refresh_with_stub_client_witness :
  "forecast" <> "Temperature"
  /\ "forecast" <> "RelativeHumidity"
  /\ exists (snap temperature : gmap string value),
       read (request_first_refresh "forecast" 0 (__init__ None 40.7 (-74.0) "Home")).1
         = Some snap
       /\ snap !! "Temperature" = Some (VDict temperature)
       /\ temperature !! "Value" = Some (VFloat 25.5)
       /\ snap !! "RelativeHumidity" = Some (VInt 62).
Proof.
  assert (H1 : "forecast" <> "Temperature") by discriminate.
  assert (H2 : "forecast" <> "RelativeHumidity") by discriminate.
  split; [exact H1 |]. split; [exact H2 |].
  destruct (first_refresh_with_stub_client "forecast" None 40.7 (-74.0) "Home" 0 H1 H2)
    as (_ & snap & temperature & days & _ & Hread & Ht & _ & Hv & Hh & _).
  exists snap, temperature. repeat split; assumption.
Defined.

Lemma failed_refresh_keeps_snapshot_witness :
  let self := cached_coordinator_with "forecast" quota_client in
  let error := noaaweather.new_default noaaweather.RequestsExceededError "daily" in
  fetch (noaaweather self) = Raise (ApiException error)
  /\ read (refresh "forecast" 1200 self).1
     = Some (<["forecast" := VList []]> (dict_of [("RelativeHumidity", VInt 55)]))
  /\ last_error (refresh "forecast" 1200 self).1 = Some (UpdateFailed error).
Proof.
  intros self error.
  assert (Hf : fetch (noaaweather self) = Raise (ApiException error))
    by reflexivity.
  split; [exact Hf |].
  destruct (failed_refresh_keeps_snapshot "forecast" self 1200 error Hf)
    as (Hread & _ & _ & Herr & _).
  split; [rewrite Hread; reflexivity | exact Herr].
Defined.

(** C4, as stated, fails: when the current-conditions call takes eleven
    seconds, the refresh attempt ends in a [TimeoutError], which is none of
    the four classes, the connection error included. *)
Lemma timeout_escapes_unclassified :
  _async_update_data "forecast" (coordinator_with slow_client) = Raise TimeoutError
  /\ error_kind TimeoutError = None
  /\ error_kind TimeoutError <> Some noaaweather.ClientConnectorError
  /\ forall error, TimeoutError <> UpdateFailed error.
Proof.
  split; [reflexivity |]. split; [reflexivity |]. split; discriminate.
Qed.

Lemma refresh_failures_classified_except_timeout_witness :
  let slow := coordinator_with slow_client in
  let rejected := coordinator_with rejecting_client in
  let error :=
    noaaweather.new noaaweather.InvalidApiKeyError "rejected" (Some 401) None in
  (10 * 1000 < took (get_current_conditions (noaaweather slow))
   /\ _async_update_data "forecast" slow = Raise TimeoutError)
  /\ (fetch (noaaweather rejected) = Raise (ApiException error)
      /\ _async_update_data "forecast" rejected = Raise (UpdateFailed error)).
Proof.
  intros slow rejected error.
  assert (Hlate : 10 * 1000 < took (get_current_conditions (noaaweather slow)))
    by reflexivity.
  assert (Hf : fetch (noaaweather rejected) = Raise (ApiException error))
    by reflexivity.
  split; split; try assumption.
  - exact (proj1 (proj2 (refresh_failures_classified_except_timeout "forecast" slow)) Hlate).
  - exact (proj1 (proj1 (refresh_failures_classified_except_timeout "forecast" rejected)
                    error Hf)).
Defined.

Lemma first_refresh_failure_keeps_kind_witness :
  let self := coordinator_with rejecting_client in
  let late := coordinator_with quota_client in
  let error :=
    noaaweather.new noaaweather.InvalidApiKeyError "rejected" (Some 401) None in
  let quota :=
    noaaweather.new_default noaaweather.RequestsExceededError "daily" in
  (took (get_current_conditions (noaaweather self)) <= 10 * 1000
   /\ outcome (get_current_conditions (noaaweather self))
      = Raise (ApiException error)
   /\ (request_first_refresh "forecast" 0 self).2 = Raise (UpdateFailed error)
   /\ error_kind (UpdateFailed error) = Some noaaweather.InvalidApiKeyError
   /\ error_kind (UpdateFailed error) <> Some noaaweather.ClientConnectorError)
  /\ (outcome (get_daily_forecast (noaaweather late))
      = Raise (ApiException quota)
      /\ (request_first_refresh "forecast" 0 late).2 = Raise (UpdateFailed quota)
      /\ error_kind (UpdateFailed quota) = Some noaaweather.RequestsExceededError).
Proof.
  intros self late error quota.
  assert (Ha : took (get_current_conditions (noaaweather self)) <= 10 * 1000)
    by (cbn; lia).
  assert (Hcur : outcome (get_current_conditions (noaaweather self))
                 = Raise (ApiException error)) by reflexivity.
  assert (Hfc : outcome (get_daily_forecast (noaaweather late))
                = Raise (ApiException quota)) by reflexivity.
  split.
  - split; [exact Ha |]. split; [exact Hcur |].
    destruct (first_refresh_failure_keeps_kind "forecast" self 0 error
                (or_introl (conj Ha Hcur))) as (Hr & Hk & Hno & _).
    split; [exact Hr |]. split; [exact Hk |]. apply Hno. discriminate.
  - split; [exact Hfc |].
    assert (Hlate : exists current,
              outcome (get_current_conditions (noaaweather late)) = Return current
              /\ took (get_current_conditions (noaaweather late)) <= 10 * 1000
              /\ took (get_current_conditions (noaaweather late))
                 + took (get_daily_forecast (noaaweather late)) <= 10 * 1000
              /\ outcome (get_daily_forecast (noaaweather late))
                 = Raise (ApiException quota)).
    { eexists. split; [reflexivity |]. split; [cbn; lia |].
      split; [cbn; lia | exact Hfc]. }
    destruct (first_refresh_failure_keeps_kind "forecast" late 0 quota
                (or_intror Hlate)) as (Hr & Hk & _).
    split; [exact Hr | exact Hk].
Defined.

(** C6, as stated, fails: the coordinator set up for a configuration that
    asks for five minutes has another interval than the configured one. *)
Lemma configured_interval_is_ignored :
  update_interval (coordinator_for five_minute_configuration)
    <> cfg_interval five_minute_configuration
  /\ cfg_interval five_minute_configuration = 300
  /\ update_interval (coordinator_for five_minute_configuration) = 600.
Proof. split; [discriminate | split; reflexivity]. Qed.

Lemma get_sensor_data_total_only_without_day_witness :
  let sensors := stub_snapshot "forecast" in
  (sensors !! "forecast"
     = Some (VList [noaaweather.forecast_day0; noaaweather.forecast_day1])
   /\ Z.of_nat (length [noaaweather.forecast_day0; noaaweather.forecast_day1]) < 2 + 1
   /\ _get_sensor_data "forecast" sensors "IconDay" (Some 2) = Raise IndexError)
  /\ (sensors !! "Pressure" = None
      /\ _get_sensor_data "forecast" sensors "Pressure" None = Return VNone)
  /\ (sensors !! "CloudCover" = Some (VInt 30)
      /\ _get_sensor_data "forecast" sensors "CloudCover" None = Return (VInt 30)).
Proof.
  intros sensors.
  assert (Hdays : sensors !! "forecast"
                  = Some (VList [noaaweather.forecast_day0; noaaweather.forecast_day1]))
    by (vm_compute; reflexivity).
  assert (Hshort : Z.of_nat (length [noaaweather.forecast_day0;
                                     noaaweather.forecast_day1]) < 2 + 1)
    by reflexivity.
  assert (Hnone : sensors !! "Pressure" = None) by (vm_compute; reflexivity).
  assert (Hsome : sensors !! "CloudCover" = Some (VInt 30))
    by (vm_compute; reflexivity).
  split; [split; [exact Hdays | split; [exact Hshort |]] |].
  - destruct (get_sensor_data_total_only_without_day "forecast" sensors "IconDay")
      as (_ & _ & _ & _ & Hidx & _).
    exact (Hidx 2 _ Hdays Hshort).
  - destruct (get_sensor_data_total_only_without_day "forecast" sensors "Pressure")
      as (_ & _ & Habsent & _).
    destruct (get_sensor_data_total_only_without_day "forecast" sensors "CloudCover")
      as (_ & Hpresent & _).
    split; split; try assumption.
    + exact (Habsent Hnone).
    + exact (Hpresent _ Hsome).
Defined.

(** ** Instances of the further properties

    With the constants read as in the integration this one follows:
    [DOMAIN] as ["noaa_weather"], [ATTR_FORECAST] as ["forecast"],
    [ATTR_VALUE] as ["Value"], [ATTR_SPEED] as ["Speed"], [ATTR_DIRECTION] as
    ["Direction"], [ATTR_ENGLISH] as ["English"], [ATTR_CATEGORY] as
    ["Category"] and [MAX_FORECAST_DAYS] as 4. *)

Lemma setup_entry_needs_host_location_witness :
  PrimFloat.eqb (config_latitude unlocated_host) 0 = true
  /\ async_setup_entry "forecast" "noaa_weather" 0 unlocated_host first_entry
     = (unlocated_host, Raise (OtherException "NameError")).
Proof.
  assert (H : PrimFloat.eqb (config_latitude unlocated_host) 0 = true)
    by reflexivity.
  split; [exact H |].
  exact (setup_entry_needs_host_location "forecast" "noaa_weather" 0
           unlocated_host first_entry (or_introl H)).
Defined.

Lemma setup_entry_stores_coordinator_witness :
  PrimFloat.eqb (config_latitude located_host) 0 = false
  /\ PrimFloat.eqb (config_longitude located_host) 0 = false
  /\ (async_setup_entry "forecast" "noaa_weather" 0 located_host first_entry).2
     = Return true.
Proof.
  assert (Hla : PrimFloat.eqb (config_latitude located_host) 0 = false)
    by reflexivity.
  assert (Hlo : PrimFloat.eqb (config_longitude located_host) 0 = false)
    by reflexivity.
  split; [exact Hla |]. split; [exact Hlo |].
  exact (proj1 (setup_entry_stores_coordinator "forecast" "noaa_weather" 0
                  located_host first_entry Hla Hlo)).
Defined.

Lemma unload_entry_removes_coordinator_witness :
  let hass := (async_setup_entry "forecast" "noaa_weather" 0
                 located_host first_entry).1 in
  let coordinator :=
    (request_first_refresh "forecast" 0 (__init__ None 40.7 4.3 "Home")).1 in
  coordinator_of_entry "noaa_weather" hass first_entry = Return coordinator
  /\ (async_unload_entry "noaa_weather" true hass first_entry).2 = Return true
  /\ coordinator_of_entry "noaa_weather"
       (async_unload_entry "noaa_weather" true hass first_entry).1 first_entry
     = Raise (KeyError (VStr "entry-1")).
Proof.
  intros hass coordinator.
  assert (Hfound : coordinator_of_entry "noaa_weather" hass first_entry
                   = Return coordinator) by (vm_compute; reflexivity).
  split; [exact Hfound |].
  destruct (unload_entry_removes_coordinator "noaa_weather" hass first_entry
              coordinator Hfound) as (Hr & Hgone & _).
  split; [exact Hr | exact Hgone].
Defined.

Lemma setup_then_unload_restores_data_witness :
  PrimFloat.eqb (config_latitude located_host) 0 = false
  /\ PrimFloat.eqb (config_longitude located_host) 0 = false
  /\ (hass_data located_host !! "noaa_weather") ≫= (.!! entry_id first_entry) = None
  /\ hass_data (async_unload_entry "noaa_weather" true
                  (async_setup_entry "forecast" "noaa_weather" 0
                     located_host first_entry).1 first_entry).1
     = <["noaa_weather" := ∅]> (hass_data located_host).
Proof.
  assert (Hla : PrimFloat.eqb (config_latitude located_host) 0 = false)
    by reflexivity.
  assert (Hlo : PrimFloat.eqb (config_longitude located_host) 0 = false)
    by reflexivity.
  assert (Hfresh : (hass_data located_host !! "noaa_weather")
                     ≫= (.!! entry_id first_entry) = None) by reflexivity.
  split; [exact Hla |]. split; [exact Hlo |]. split; [exact Hfresh |].
  exact (proj1 (proj2 (setup_then_unload_restores_data "forecast" "noaa_weather" 0
                         located_host first_entry Hla Hlo Hfresh))).
Defined.

Lemma setup_two_entries_witness :
  PrimFloat.eqb (config_latitude located_host) 0 = false
  /\ PrimFloat.eqb (config_longitude located_host) 0 = false
  /\ entry_id first_entry <> entry_id second_entry
  /\ exists coordinator1 coordinator2,
       coordinator_of_entry "noaa_weather"
         (async_setup_entry "forecast" "noaa_weather" 600
            (async_setup_entry "forecast" "noaa_weather" 0
               located_host first_entry).1 second_entry).1 first_entry
       = Return coordinator1
       /\ coordinator_of_entry "noaa_weather"
            (async_setup_entry "forecast" "noaa_weather" 600
               (async_setup_entry "forecast" "noaa_weather" 0
                  located_host first_entry).1 second_entry).1 second_entry
          = Return coordinator2
       /\ name coordinator1 = "Home" /\ name coordinator2 = "Cabin".
Proof.
  assert (Hla : PrimFloat.eqb (config_latitude located_host) 0 = false)
    by reflexivity.
  assert (Hlo : PrimFloat.eqb (config_longitude located_host) 0 = false)
    by reflexivity.
  assert (Hne : entry_id first_entry <> entry_id second_entry) by discriminate.
  split; [exact Hla |]. split; [exact Hlo |]. split; [exact Hne |].
  destruct (setup_two_entries "forecast" "noaa_weather" 0 600 located_host
              first_entry second_entry Hla Hlo Hne)
    as (c1 & c2 & _ & H1 & H2 & Hn1 & Hn2).
  exists c1, c2. repeat split; assumption.
Defined.

Local Abbreviation sample_sensor_entities :=
  (sensor_entities "forecast" "Value" "Speed" "Direction" "English" "Category" 4).

Local Abbreviation sample_forecast :=
  (entity_forecast "forecast" "Value" "Speed" "Direction" some_conditions
     "datetime" "cloud_coverage" "native_temperature" "native_templow"
     "native_apparent_temperature" "native_precipitation"
     "precipitation_probability" "native_wind_speed" "native_wind_gust_speed"
     "wind_bearing" "condition" epoch_as_text).

Lemma sensors_for_empty_forecast_witness :
  read (coordinator_holding data_without_days) = Some data_without_days
  /\ data_without_days !! "forecast" = Some (VList [])
  /\ truthy (VList []) = false
  /\ exists sensors,
       sample_sensor_entities (coordinator_holding data_without_days)
       = Return sensors
       /\ length sensors = 11%nat.
Proof.
  assert (Hd : read (coordinator_holding data_without_days)
               = Some data_without_days) by reflexivity.
  assert (Hdays : data_without_days !! "forecast" = Some (VList []))
    by (vm_compute; reflexivity).
  assert (Hfalsy : truthy (VList []) = false) by reflexivity.
  split; [exact Hd |]. split; [exact Hdays |]. split; [exact Hfalsy |].
  destruct (sensors_for_empty_forecast "forecast" "Value" "Speed" "Direction"
              "English" "Category" 4 _ _ _ Hd Hdays Hfalsy)
    as (_ & sensors & Hs & Hlen & _).
  exists sensors. split; assumption.
Defined.

Lemma update_is_a_fresh_sensor_witness :
  let description := Description "CloudCover" "Cloud cover" as_is no_attributes in
  let old := coordinator_holding data_without_days in
  let new := coordinator_holding data_with_five_days in
  let sensor := sensor_for old description None (VInt 30) in
  NOAAWeatherSensor_init "forecast" old description None = Return sensor
  /\ location_key new = location_key old
  /\ _handle_coordinator_update "forecast" new sensor
     = NOAAWeatherSensor_init "forecast" new description None.
Proof.
  intros description old new sensor.
  assert (Hinit : NOAAWeatherSensor_init "forecast" old description None
                  = Return sensor) by (vm_compute; reflexivity).
  assert (Hloc : location_key new = location_key old) by reflexivity.
  split; [exact Hinit |]. split; [exact Hloc |].
  exact (proj1 (update_is_a_fresh_sensor "forecast" old new description None
                  sensor Hinit Hloc)).
Defined.

Lemma sensors_for_short_forecast_raise_witness :
  let data := stub_snapshot "forecast" in
  let days := [noaaweather.forecast_day0; noaaweather.forecast_day1] in
  let first := match noaaweather.forecast_day0 with VDict d => d | _ => ∅ end in
  let description :=
    Description "CloudCoverDay" "Cloud cover day" as_is no_attributes in
  read (coordinator_holding data) = Some data
  /\ data !! "forecast" = Some (VList days)
  /\ days !! 0%nat = Some (VDict first)
  /\ is_Some (first !! key description)
  /\ Z.of_nat (length days) <= 4
  /\ exists e, sample_sensor_entities (coordinator_holding data) = Raise e.
Proof.
  intros data days first description.
  assert (Hd : read (coordinator_holding data) = Some data) by reflexivity.
  assert (Hflag : forecast (coordinator_holding data) = true) by reflexivity.
  assert (Hdays : data !! "forecast" = Some (VList days))
    by (vm_compute; reflexivity).
  assert (Hfirst : days !! 0%nat = Some (VDict first)) by reflexivity.
  assert (Hin : description ∈ FORECAST_SENSOR_TYPES "Value" "Speed" "Direction"
                                "English" "Category")
    by (apply list_elem_of_further, list_elem_of_here).
  assert (Hkey : is_Some (first !! key description))
    by (exists (VInt 40); vm_compute; reflexivity).
  assert (Hshort : Z.of_nat (length days) <= 4) by (cbn; lia).
  split; [exact Hd |]. split; [exact Hdays |]. split; [exact Hfirst |].
  split; [exact Hkey |]. split; [exact Hshort |].
  exact (sensors_for_short_forecast_raise "forecast" "Value" "Speed" "Direction"
           "English" "Category" 4 _ data days first description
           Hd Hflag Hdays Hfirst Hin Hkey Hshort).
Defined.

Lemma sensors_for_full_forecast_witness :
  let data := data_with_five_days in
  let days := replicate 5 (VDict plain_day) in
  read (coordinator_holding data) = Some data
  /\ data !! "forecast" = Some (VList days)
  /\ days !! 0%nat = Some (VDict plain_day)
  /\ exists current added,
       sample_sensor_entities (coordinator_holding data)
       = Return (current ++ added)%list
       /\ length current = 11%nat
       /\ length added = 5%nat.
Proof.
  intros data days.
  assert (Hd : read (coordinator_holding data) = Some data) by reflexivity.
  assert (Hdays : data !! "forecast" = Some (VList days))
    by (vm_compute; reflexivity).
  assert (Hfirst : days !! 0%nat = Some (VDict plain_day)) by reflexivity.
  assert (Hgood : forall day, 0 <= day <= 4 ->
            exists entry, days !! Z.to_nat day = Some (VDict entry)
              /\ forall d, d ∈ FORECAST_SENSOR_TYPES "Value" "Speed" "Direction"
                                 "English" "Category" ->
                           is_Some (plain_day !! key d) ->
                           is_Some (entry !! key d)).
  { intros day Hday. exists plain_day. split; [| trivial].
    assert (day = 0 \/ day = 1 \/ day = 2 \/ day = 3 \/ day = 4)
      as [-> | [-> | [-> | [-> | ->]]]] by lia; reflexivity. }
  split; [exact Hd |]. split; [exact Hdays |]. split; [exact Hfirst |].
  destruct (sensors_for_full_forecast "forecast" "Value" "Speed" "Direction"
              "English" "Category" 4 _ data days plain_day Hd Hdays Hfirst Hgood)
    as (current & added & Hs & Hcur & _ & _ & Hadded & _).
  exists current, added. split; [exact Hs |]. split; [exact Hcur |].
  rewrite (Hadded eq_refl). vm_compute. reflexivity.
Defined.

Lemma sensor_value_for_missing_key_witness :
  let description :=
    Description "Ceiling" "Cloud ceiling" (value_of "Value") no_attributes in
  read (coordinator_holding data_without_days) = Some data_without_days
  /\ data_without_days !! key description = None
  /\ exists sensor,
       NOAAWeatherSensor_init "forecast" (coordinator_holding data_without_days)
         description None = Return sensor
       /\ native_value sensor = Raise TypeError.
Proof.
  intros description.
  assert (Hd : read (coordinator_holding data_without_days)
               = Some data_without_days) by reflexivity.
  assert (Hin : description ∈ SENSOR_TYPES "Value" "Speed")
    by (apply list_elem_of_further, list_elem_of_here).
  assert (Hmissing : data_without_days !! key description = None)
    by (vm_compute; reflexivity).
  split; [exact Hd |]. split; [exact Hmissing |].
  destruct (sensor_value_for_missing_key "forecast" "Value" "Speed" _ _
              description Hd Hin Hmissing) as (sensor & Hs & _ & Hv).
  exists sensor. split; [exact Hs | exact Hv].
Defined.

Lemma current_sensor_attributes_witness :
  let description :=
    Description "Precipitation" "Precipitation" (value_of "Value") type_attribute in
  let coordinator := coordinator_holding data_without_days in
  let sensor := sensor_for coordinator description None VNone in
  NOAAWeatherSensor_init "forecast" coordinator description None = Return sensor
  /\ read coordinator = Some data_without_days
  /\ extra_state_attributes coordinator sensor
     = Raise (KeyError (VStr "PrecipitationType")).
Proof.
  intros description coordinator sensor.
  assert (Hinit : NOAAWeatherSensor_init "forecast" coordinator description None
                  = Return sensor) by (vm_compute; reflexivity).
  assert (Hin : description ∈ SENSOR_TYPES "Value" "Speed")
    by (do 6 apply list_elem_of_further; apply list_elem_of_here).
  assert (Hd : read coordinator = Some data_without_days) by reflexivity.
  split; [exact Hinit |]. split; [exact Hd |].
  rewrite (current_sensor_attributes "forecast" "Value" "Speed" coordinator
             coordinator data_without_days description sensor Hinit Hin Hd).
  vm_compute. reflexivity.
Defined.

Lemma sensors_stem_from_the_tables_witness :
  exists sensors,
    sample_sensor_entities (coordinator_holding data_with_five_days)
    = Return sensors
    /\ Forall (fun s => forecast_day s = None
                        \/ exists day, forecast_day s = Some day /\ 0 <= day <= 4)
              sensors.
Proof.
  assert (Hs : exists sensors,
             sample_sensor_entities (coordinator_holding data_with_five_days)
             = Return sensors) by (vm_compute; eexists; reflexivity).
  destruct Hs as (sensors & Hs). exists sensors. split; [exact Hs |].
  eapply Forall_impl;
    [exact (sensors_stem_from_the_tables "forecast" "Value" "Speed" "Direction"
              "English" "Category" 4 _ sensors Hs) |].
  intros s (_ & _ & [[Hnone _] | (day & Hday & Hrange & _)]); [now left |].
  right. exists day. now split.
Defined.

Lemma sensor_unique_ids_differ_witness :
  exists sensors,
    sample_sensor_entities (coordinator_holding data_with_five_days)
    = Return sensors
    /\ NoDup (_attr_unique_id <$> sensors).
Proof.
  assert (Hs : exists sensors,
             sample_sensor_entities (coordinator_holding data_with_five_days)
             = Return sensors) by (vm_compute; eexists; reflexivity).
  destruct Hs as (sensors & Hs). exists sensors. split; [exact Hs |].
  exact (sensor_unique_ids_differ "forecast" "Value" "Speed" "Direction"
           "English" "Category" 4 _ sensors Hs).
Defined.

Lemma condition_is_first_match_witness :
  read (coordinator_holding data_without_days) = Some data_without_days
  /\ data_without_days !! "WeatherIcon" = Some (VInt 34)
  /\ condition some_conditions (coordinator_holding data_without_days)
     = Return (VStr "clear-night").
Proof.
  assert (Hd : read (coordinator_holding data_without_days)
               = Some data_without_days) by reflexivity.
  assert (Hicon : data_without_days !! "WeatherIcon" = Some (VInt 34))
    by (vm_compute; reflexivity).
  split; [exact Hd |]. split; [exact Hicon |].
  exact (proj1 (condition_is_first_match some_conditions _ _ Hd) _ Hicon).
Defined.

Lemma forecast_keeps_days_witness :
  let data := stub_snapshot "forecast" in
  let days := [noaaweather.forecast_day0; noaaweather.forecast_day1] in
  read (coordinator_holding data) = Some data
  /\ forecast (coordinator_holding data) = true
  /\ data !! "forecast" = Some (VList days)
  /\ exists entries,
       sample_forecast (coordinator_holding data) = Return (VList entries)
       /\ length entries = 2%nat.
Proof.
  intros data days.
  assert (Hd : read (coordinator_holding data) = Some data) by reflexivity.
  assert (Hflag : forecast (coordinator_holding data) = true) by reflexivity.
  assert (Hdays : data !! "forecast" = Some (VList days))
    by (vm_compute; reflexivity).
  assert (Hout : exists out, sample_forecast (coordinator_holding data) = Return out)
    by (vm_compute; eexists; reflexivity).
  split; [exact Hd |]. split; [exact Hflag |]. split; [exact Hdays |].
  destruct Hout as (out & Hout).
  destruct (proj1 (forecast_keeps_days "forecast" "Value" "Speed" "Direction"
                     some_conditions "datetime" "cloud_coverage"
                     "native_temperature" "native_templow"
                     "native_apparent_temperature" "native_precipitation"
                     "precipitation_probability" "native_wind_speed"
                     "native_wind_gust_speed" "wind_bearing" "condition"
                     epoch_as_text _ data Hd days out Hflag Hdays) Hout)
    as (entries & -> & Hall).
  exists entries. split; [exact Hout |].
  apply Forall2_length in Hall. now rewrite <- Hall.
Defined.

Lemma forecast_needs_known_icons_witness :
  let data := data_with_five_days in
  let days := replicate 5 (VDict plain_day) in
  read (coordinator_holding data) = Some data
  /\ data !! "forecast" = Some (VList days)
  /\ VDict plain_day ∈ days
  /\ getitem (VDict plain_day) (VStr "IconDay") = Return (VInt 99)
  /\ List.find (fun kv => in_ints (VInt 99) kv.2) some_conditions = None
  /\ exists e, sample_forecast (coordinator_holding data) = Raise e.
Proof.
  intros data days.
  assert (Hd : read (coordinator_holding data) = Some data) by reflexivity.
  assert (Hflag : forecast (coordinator_holding data) = true) by reflexivity.
  assert (Hdays : data !! "forecast" = Some (VList days))
    by (vm_compute; reflexivity).
  assert (Hin : VDict plain_day ∈ days) by apply list_elem_of_here.
  assert (Hicon : getitem (VDict plain_day) (VStr "IconDay") = Return (VInt 99))
    by (vm_compute; reflexivity).
  assert (Hnone : List.find (fun kv => in_ints (VInt 99) kv.2) some_conditions
                  = None) by reflexivity.
  split; [exact Hd |]. split; [exact Hdays |]. split; [exact Hin |].
  split; [exact Hicon |]. split; [exact Hnone |].
  exact (proj1 (forecast_needs_known_icons "forecast" "Value" "Speed" "Direction"
                  some_conditions "datetime" "cloud_coverage"
                  "native_temperature" "native_templow"
                  "native_apparent_temperature" "native_precipitation"
                  "precipitation_probability" "native_wind_speed"
                  "native_wind_gust_speed" "wind_bearing" "condition"
                  epoch_as_text _ data Hd days (VDict plain_day) (VInt 99)
                  Hflag Hdays Hin Hicon Hnone)).
Defined.

Lemma pressure_needs_its_field_witness :
  read (coordinator_holding data_with_five_days) = Some data_with_five_days
  /\ native_pressure "Value" (coordinator_holding data_with_five_days)
     = Return (VFloat 1013.2)
  /\ (exists pressure,
        data_with_five_days !! "Pressure" = Some (VDict pressure))
  /\ read (coordinator_holding data_without_days) = Some data_without_days
  /\ data_without_days !! "Pressure" = None
  /\ native_pressure "Value" (coordinator_holding data_without_days)
     = Raise (OtherException "AttributeError").
Proof.
  assert (Hd : read (coordinator_holding data_with_five_days)
               = Some data_with_five_days) by reflexivity.
  assert (Hp : native_pressure "Value" (coordinator_holding data_with_five_days)
               = Return (VFloat 1013.2)) by (vm_compute; reflexivity).
  assert (Hd' : read (coordinator_holding data_without_days)
                = Some data_without_days) by reflexivity.
  assert (Hnone : data_without_days !! "Pressure" = None)
    by (vm_compute; reflexivity).
  split; [exact Hd |]. split; [exact Hp |]. split.
  - destruct (proj1 (proj1 (pressure_needs_its_field "Value" _ _ Hd
                              (VFloat 1013.2))) Hp) as (pressure & Hfield & _).
    exists pressure. exact Hfield.
  - split; [exact Hd' |]. split; [exact Hnone |].
    exact (proj2 (pressure_needs_its_field "Value" _ _ Hd' VNone) Hnone).
Defined.
